(** * Pitch-deck generator: content orchestrator, financial projection
      engine and market-sizing calculator

    A shallow embedding of
      - backend/src/ai/content_generator.py
      - backend/src/ai/financial_modeler.py
      - backend/src/ai/market_researcher.py
    followed by the properties of these three modules.

    Conventions of the embedding.
      - Python [float] values are idealised as exact rationals ([Q], compared
        with [==]); there is no overflow to [inf] and no binary rounding.
        [float('inf')] is the separate constructor [Inf] where the source
        produces it.
      - [round(x, n)] is decimal rounding, ties to even.
      - Values stored in a [Dict[str, Any]] are [PyVal]s, so the type errors
        Python raises on [None] or on a string are part of the model.
      - Exceptions are values of [result]; effects on the process-wide random
        generator, the wall clock and the logger are threaded through a
        [World]. *)

From Stdlib Require Import ZArith QArith Qround Qabs Lqa Lia List Ascii String.
From stdpp Require Import base option strings gmap list.

Local Open Scope string_scope.
Local Open Scope Z_scope.

(** ** Python values and exceptions *)

Inductive Exception : Type :=
| TypeError
| OverflowError
| ZeroDivisionError
| IndexError
| RecursionError
| ProviderError (reason : string).

Inductive result (A : Type) : Type :=
| Return (a : A)
| Raise (e : Exception).
Arguments Return {A} a.
Arguments Raise {A} e.

Inductive PyVal : Type :=
| PyNone
| PyInt (z : Z)
| PyFloat (q : Q)
| PyStr (s : string).

(** A float that may be the source's [float('inf')]. *)
Inductive PyFloatInf : Type :=
| Finite (q : Q)
| Inf.

(** [dict.get(key, default)] on a [Dict[str, Any]]. *)
Definition py_get (d : gmap string PyVal) (key : string) (default : PyVal) : PyVal :=
  match d !! key with
  | Some v => v
  | None => default
  end.

(** The largest magnitude an [int] may have and still convert to a binary64
    float; beyond it the conversion raises [OverflowError]. *)
Definition float_max_int : Z := 2 ^ 1024 - 2 ^ 970.

(** The implicit conversion of an operand of float arithmetic. *)
Definition float_of (v : PyVal) : result Q :=
  match v with
  | PyInt z => if Z.abs z <? float_max_int then Return (inject_Z z) else Raise OverflowError
  | PyFloat q => Return q
  | PyNone => Raise TypeError
  | PyStr _ => Raise TypeError
  end.

(** [v * f] for a float [f]; the product is a float. *)
Definition py_mul_float (v : PyVal) (f : Q) : result Q :=
  match float_of v with
  | Return x => Return (x * f)%Q
  | Raise e => Raise e
  end.

(** [v > 0]. *)
Definition py_gt_zero (v : PyVal) : result bool :=
  match v with
  | PyInt z => Return (0 <? z)
  | PyFloat q => Return (negb (Qle_bool q 0%Q))
  | PyNone => Raise TypeError
  | PyStr _ => Raise TypeError
  end.

Definition Qlt_bool (a b : Q) : bool := negb (Qle_bool b a).

(** [a / b] (true division). Two [int]s are divided exactly and only the
    quotient has to fit a float; otherwise both operands are converted. *)
Definition py_truediv (a b : PyVal) : result Q :=
  match a, b with
  | PyInt x, PyInt y =>
      if y =? 0 then Raise ZeroDivisionError
      else if Qlt_bool (Qabs (inject_Z x / inject_Z y)) (inject_Z float_max_int)
           then Return (inject_Z x / inject_Z y)%Q
           else Raise OverflowError
  | _, _ =>
      match float_of a with
      | Return x =>
          match float_of b with
          | Return y => if Qeq_bool y 0 then Raise ZeroDivisionError else Return (x / y)%Q
          | Raise e => Raise e
          end
      | Raise e => Raise e
      end
  end.

(** ** Rounding *)

(** [max(a, b)] and [min(a, b)]: the first argument wins a tie. *)
Definition py_max (a b : Q) : Q := if Qlt_bool a b then b else a.
Definition py_min (a b : Q) : Q := if Qlt_bool b a then b else a.

(** Nearest integer, ties to even. *)
Definition round_half_even (q : Q) : Z :=
  let f := Qfloor q in
  let r := (q - inject_Z f)%Q in
  if Qlt_bool r (1 # 2) then f
  else if Qlt_bool (1 # 2) r then f + 1
  else if Z.even f then f else f + 1.

(** [round(q, ndigits)] for [ndigits >= 0]. *)
Definition py_round (q : Q) (ndigits : nat) : Q :=
  Qmake (round_half_even (q * inject_Z (10 ^ Z.of_nat ndigits))) (Pos.pow 10 (Pos.of_nat ndigits)).

Definition py_round_inf (x : PyFloatInf) (ndigits : nat) : PyFloatInf :=
  match x with
  | Finite q => Finite (py_round q ndigits)
  | Inf => Inf
  end.

(** [l[i]]: [IndexError] past the end. *)
Definition py_index {A} (l : list A) (i : nat) : result A :=
  match l !! i with
  | Some x => Return x
  | None => Raise IndexError
  end.

(** [sum(l)]. *)
Definition py_sum (l : list Q) : Q := fold_left Qplus l 0%Q.

(** ** Strings *)

Definition is_lower (c : ascii) : bool :=
  let n := nat_of_ascii c in (97 <=? n)%nat && (n <=? 122)%nat.
Definition is_upper (c : ascii) : bool :=
  let n := nat_of_ascii c in (65 <=? n)%nat && (n <=? 90)%nat.
Definition to_upper (c : ascii) : ascii :=
  if is_lower c then ascii_of_nat (nat_of_ascii c - 32) else c.
Definition to_lower (c : ascii) : ascii :=
  if is_upper c then ascii_of_nat (nat_of_ascii c + 32) else c.

(** [s.replace(old, new)] for single characters. *)
Fixpoint str_replace (old new : ascii) (s : string) : string :=
  match s with
  | EmptyString => EmptyString
  | String c rest =>
      String (if Ascii.eqb c old then new else c) (str_replace old new rest)
  end.

(** [s.title()]: the first cased character of every run of cased characters is
    upper-cased, the others lower-cased. *)
Fixpoint title_from (previous_is_cased : bool) (s : string) : string :=
  match s with
  | EmptyString => EmptyString
  | String c rest =>
      if is_lower c then
        String (if previous_is_cased then c else to_upper c) (title_from true rest)
      else if is_upper c then
        String (if previous_is_cased then to_lower c else c) (title_from true rest)
      else String c (title_from false rest)
  end.
Definition str_title (s : string) : string := title_from false s.

(** ** Wall clock *)

Record datetime : Type := {
  year : nat; month : nat; day : nat;
  hour : nat; minute : nat; second : nat; microsecond : nat
}.

Definition digit (n : nat) : ascii := ascii_of_nat (48 + n mod 10).

(** The last [width] decimal digits of [n], zero padded. *)
Fixpoint zero_padded (width n : nat) : string :=
  match width with
  | O => EmptyString
  | S w => zero_padded w (n / 10) ++ String (digit n) EmptyString
  end.

(** [datetime.isoformat()]: the microseconds are printed only when non-zero. *)
Definition isoformat (t : datetime) : string :=
  zero_padded 4 (year t) ++ "-" ++ zero_padded 2 (month t) ++ "-" ++ zero_padded 2 (day t)
  ++ "T" ++ zero_padded 2 (hour t) ++ ":" ++ zero_padded 2 (minute t) ++ ":"
  ++ zero_padded 2 (second t)
  ++ (if Nat.eqb (microsecond t) 0 then "" else "." ++ zero_padded 6 (microsecond t)).

(** ** The world: random generator, clock and logger *)

Record World : Type := {
  rand_idx : nat;          (* samples drawn from numpy's global generator *)
  clock_idx : nat;         (* readings taken of the wall clock *)
  api_idx : nat;           (* content-generation requests started *)
  log : list string        (* events handed to the logger, newest first *)
}.

Definition M (A : Type) : Type := World -> result A * World.

Definition ret {A} (a : A) : M A := fun w => (Return a, w).
Definition raise {A} (e : Exception) : M A := fun w => (Raise e, w).
Definition bind {A B} (c : M A) (k : A -> M B) : M B :=
  fun w =>
    match c w with
    | (Return a, w') => k a w'
    | (Raise e, w') => (Raise e, w')
    end.
Definition lift {A} (r : result A) : M A := fun w => (r, w).

(** [try: body / except Exception: handler]. *)
Definition try_except {A} (body : M A) (handler : Exception -> M A) : M A :=
  fun w =>
    match body w with
    | (Return a, w') => (Return a, w')
    | (Raise e, w') => handler e w'
    end.

Set Warnings "-register-all".

Declare Scope py_scope.
Delimit Scope py_scope with py.
Notation "'let*' x ':=' c 'in' k" := (bind c (fun x => k))
  (at level 10, x name, c at level 100, k at level 200) : py_scope.
Local Open Scope py_scope.

Definition logger (event : string) : M unit :=
  fun w => (Return tt, {| rand_idx := rand_idx w; clock_idx := clock_idx w;
                          api_idx := api_idx w; log := event :: log w |}).

(** [np.random.normal(0, 0.05)]: the next sample of the process-wide
    generator; [draws] lists the samples in the order they are taken. *)
Definition np_random_normal (draws : nat -> Q) : M Q :=
  fun w => (Return (draws (rand_idx w)),
            {| rand_idx := S (rand_idx w); clock_idx := clock_idx w;
               api_idx := api_idx w; log := log w |}).

(** [datetime.utcnow()]: the next reading of the clock. *)
Definition utcnow (clock : nat -> datetime) : M datetime :=
  fun w => (Return (clock (clock_idx w)),
            {| rand_idx := rand_idx w; clock_idx := S (clock_idx w);
               api_idx := api_idx w; log := log w |}).

(** A dict literal with string keys, looked up with [.get(key, default)];
    a key that is not a string is never found. *)
Definition table_get {A} (table : list (string * A)) (key : PyVal) (default : A) : A :=
  match key with
  | PyStr k =>
      match List.find (fun kv => String.eqb (fst kv) k) table with
      | Some kv => snd kv
      | None => default
      end
  | _ => default
  end.

(** [[f(l[i:i+12]) for i in range(0, len(l), 12)]] with [f = sum]. *)
Definition annual_sums (l : list Q) : list Q :=
  List.map (fun k => py_sum (take 12 (drop (12 * k) l)))
           (seq 0 ((length l + 11) / 12)).

(** * content_generator.py *)

Module ContentGenerator.

(** [models/slide.py], [SlideType] and its [.value]. *)
Inductive SlideType : Type :=
| TITLE | PROBLEM | SOLUTION | MARKET_OPPORTUNITY | BUSINESS_MODEL | TRACTION
| COMPETITION | TEAM | FINANCIALS | FUNDING_ASK | ROADMAP | CONTACT | CUSTOM.

Definition value (t : SlideType) : string :=
  match t with
  | TITLE => "title"
  | PROBLEM => "problem"
  | SOLUTION => "solution"
  | MARKET_OPPORTUNITY => "market_opportunity"
  | BUSINESS_MODEL => "business_model"
  | TRACTION => "traction"
  | COMPETITION => "competition"
  | TEAM => "team"
  | FINANCIALS => "financials"
  | FUNDING_ASK => "funding_ask"
  | ROADMAP => "roadmap"
  | CONTACT => "contact"
  | CUSTOM => "custom"
  end.

(** JSON-like values of the content dicts. *)
Inductive Json : Type :=
| JNull
| JNum (q : Q)
| JStr (s : string)
| JList (items : list Json)
| JDict (fields : list (string * Json)).

(** The columns of [models/startup.py] the generator reads most. *)
Record Startup : Type := {
  id : string;
  name : string;
  tagline : option string;
  industry : string;
  funding_stage : string;
  revenue_model : string;
  current_revenue : option Q;
  customer_count : option Z;
  team_size : option Z;
  funding_ask : option Q
}.

(** The dict produced for one slide. *)
Record SlideContent : Type := {
  slide_type : string;
  content : Json;
  generated_at : string;
  model_used : string
}.

(** [self.model_preferences["content"]] *)
Definition content_model : string := "gpt-4".

Definition default_slide_types : list SlideType :=
  [TITLE; PROBLEM; SOLUTION; MARKET_OPPORTUNITY; BUSINESS_MODEL; TRACTION;
   COMPETITION; TEAM; FINANCIALS; FUNDING_ASK].

Section Orchestrator.
(** [slide_body k startup slide_type] is what the [k]-th generation request
    of the process yields between the first log line of
    [generate_slide_content] and its [return]: the prompt template, the
    context data and the [_generate_*_slide] coroutine with its call to the
    provider. It is [Raise] when any of them raises. *)
Variable slide_body : nat -> Startup -> SlideType -> result Json.
Variable clock : nat -> datetime.

Definition run_slide_body (startup : Startup) (slide_type : SlideType) : M Json :=
  fun w => (slide_body (api_idx w) startup slide_type,
            {| rand_idx := rand_idx w; clock_idx := clock_idx w;
               api_idx := S (api_idx w); log := log w |}).

Definition generate_slide_content (startup : Startup) (slide_type : SlideType)
    : M SlideContent :=
  try_except
    (let* _ := logger ("Generating content for " ++ value slide_type ++ " slide") in
     let* body := run_slide_body startup slide_type in
     let* now := utcnow clock in
     ret {| slide_type := value slide_type;
            content := body;
            generated_at := isoformat now;
            model_used := content_model |})
    (fun e =>
       let* _ := logger ("Failed to generate " ++ value slide_type ++ " slide content") in
       raise e).

Definition _create_fallback_content (slide_type : SlideType) (startup : Startup)
    : M SlideContent :=
  let* now := utcnow clock in
  ret {| slide_type := value slide_type;
         content :=
           JDict [("title", JStr (str_title (str_replace "_" " " (value slide_type))));
                  ("content", JStr ("Content for " ++ value slide_type ++ " slide"));
                  ("bullet_points",
                    JList [JStr "Sample bullet point 1"; JStr "Sample bullet point 2"]);
                  ("layout", JStr "bullet_points")];
         generated_at := isoformat now;
         model_used := "fallback" |}.

(** [asyncio.gather] with [return_exceptions=True]: every task runs
    to its end, and the outcomes are listed in the order of the tasks,
    an exception taking the place of the value of the task that raised
    it. *)
Fixpoint gather {A} (tasks : list (M A)) : M (list (result A)) :=
  match tasks with
  | [] => ret []
  | task :: rest =>
      fun w =>
        let (outcome, w') := task w in
        match gather rest w' with
        | (Return outcomes, w'') => (Return (outcome :: outcomes), w'')
        | (Raise e, w'') => (Raise e, w'')
        end
  end.

(** The [for i, result in enumerate(results)] loop. *)
Fixpoint merge_results (startup : Startup) (slide_types : list SlideType)
    (i : nat) (results : list (result SlideContent))
    (slides_content : list SlideContent) : M (list SlideContent) :=
  match results with
  | [] => ret slides_content
  | Raise _ :: rest =>
      let* failed_type := lift (py_index slide_types i) in
      let* _ := logger ("Failed to generate content for " ++ value failed_type) in
      let* fallback := _create_fallback_content failed_type startup in
      merge_results startup slide_types (S i) rest (slides_content ++ [fallback])
  | Return slide :: rest =>
      merge_results startup slide_types (S i) rest (slides_content ++ [slide])
  end.

(** [not slide_types]: true of [None] and of the empty list. *)
Definition py_not {A} (l : option (list A)) : bool :=
  match l with
  | None => true
  | Some [] => true
  | Some (_ :: _) => false
  end.

Definition generate_pitch_deck_content (startup : Startup)
    (slide_types : option (list SlideType)) : M (list SlideContent) :=
  try_except
    (let* _ := logger "Starting pitch deck content generation" in
     let slide_types :=
       if py_not slide_types then default_slide_types
       else match slide_types with Some l => l | None => [] end in
     let tasks := List.map (generate_slide_content startup) slide_types in
     let* results := gather tasks in
     let* slides_content := merge_results startup slide_types 0 results [] in
     let* _ := logger "Pitch deck content generation completed" in
     ret slides_content)
    (fun e =>
       let* _ := logger "Failed to generate pitch deck content" in
       raise e).
End Orchestrator.

End ContentGenerator.

(** * market_researcher.py *)

Module MarketResearcher.


Section Researcher.
Variable clock : nat -> datetime.




End Researcher.

End MarketResearcher.

(** * financial_modeler.py *)

Module FinancialModeler.

(** [self.default_assumptions] *)
Definition customer_acquisition_cost_default : Q := 100%Q.
Definition customer_lifetime_value_default : Q := 500%Q.
Definition churn_rate_default : Q := 5 # 100.
Definition gross_margin_default : Q := 70 # 100.

Record RevenueMonth : Type := {
  rev_month : nat;
  rev_revenue : Q;
  rev_growth_rate : Q;
  rev_cumulative_revenue : Q
}.

Record RevenueProjections : Type := {
  monthly_revenue : list RevenueMonth;
  annual_revenue : list Q;
  revenue_total_36_months : Q;
  average_monthly_growth : Q
}.

Record CostMonth : Type := {
  cost_month : nat;
  cost_team_size : Q;
  personnel_costs : Q;
  overhead_costs : Q;
  marketing_costs : Q;
  other_costs : Q;
  total_costs : Q
}.

Record CostProjections : Type := {
  monthly_costs : list CostMonth;
  annual_costs : list Q;
  costs_total_36_months : Q;
  average_monthly_burn : Q
}.

Record CashFlowMonth : Type := {
  cf_month : nat;
  cf_revenue : Q;
  cf_costs : Q;
  net_cash_flow : Q;
  cumulative_cash : Q;
  runway_months : PyFloatInf
}.

Record CashFlowProjections : Type := {
  monthly_cash_flow : list CashFlowMonth;
  starting_cash : Q;
  ending_cash : Q;
  total_net_cash_flow : Q;
  average_monthly_cash_flow : Q
}.

Record UnitEconomics : Type := {
  average_revenue_per_user : Q;
  customer_acquisition_cost : Q;
  customer_lifetime_value : Q;
  churn_rate : Q;
  ltv_cac_ratio : Q;
  payback_period_months : PyFloatInf;
  gross_margin : Q;
  contribution_margin : Q
}.

Record ValuationModel : Type := {
  projected_annual_revenue : Q;
  valuation_multiple : Q;
  estimated_valuation : Q;
  valuation_date : string;
  methodology : string
}.

Record KeyMetrics : Type := {
  km_total_revenue_36_months : Q;
  km_total_costs_36_months : Q;
  net_profit_36_months : Q;
  average_monthly_revenue : Q;
  average_monthly_costs : Q;
  profit_margin : Q;
  revenue_growth_rate : Q;
  burn_rate : Q
}.

(** The dict [create_financial_model] returns. It has one of two shapes: the
    computed model, or the record of [_create_fallback_financial_model], whose
    sub-dicts hold a single aggregate each and which alone has a ["source"]
    key. ["scenarios"] is the empty dict or holds the three scenario models. *)
Inductive FinancialModel : Type :=
| ComputedModel
    (startup_name : PyVal) (created_at : string) (projection_period : string)
    (revenue_projections : RevenueProjections)
    (cost_projections : CostProjections)
    (cash_flow_projections : CashFlowProjections)
    (unit_economics : UnitEconomics)
    (valuation_model : ValuationModel)
    (key_metrics : KeyMetrics)
    (scenarios : Scenarios)
| FallbackModel
    (startup_name : PyVal) (created_at : string) (projection_period : string)
    (fb_total_revenue_36_months : Z)
    (fb_total_costs_36_months : Z)
    (fb_total_net_cash_flow : Z)
    (fb_ltv_cac_ratio : Z)
    (fb_estimated_valuation : Z)
    (fb_profit_margin : Z)
    (scenarios : Scenarios)
    (source : string)
with Scenarios : Type :=
| NoScenarios
| ThreeScenarios (base_case optimistic pessimistic : FinancialModel).

Definition scenarios_of (m : FinancialModel) : Scenarios :=
  match m with
  | ComputedModel _ _ _ _ _ _ _ _ _ sc => sc
  | FallbackModel _ _ _ _ _ _ _ _ _ sc _ => sc
  end.

Definition source_of (m : FinancialModel) : option string :=
  match m with
  | ComputedModel _ _ _ _ _ _ _ _ _ _ => None
  | FallbackModel _ _ _ _ _ _ _ _ _ _ src => Some src
  end.

Definition revenue_projections_of (m : FinancialModel) : option RevenueProjections :=
  match m with
  | ComputedModel _ _ _ rp _ _ _ _ _ _ => Some rp
  | FallbackModel _ _ _ _ _ _ _ _ _ _ _ => None
  end.

Definition cost_projections_of (m : FinancialModel) : option CostProjections :=
  match m with
  | ComputedModel _ _ _ _ cp _ _ _ _ _ => Some cp
  | FallbackModel _ _ _ _ _ _ _ _ _ _ _ => None
  end.

Definition cash_flow_projections_of (m : FinancialModel) : option CashFlowProjections :=
  match m with
  | ComputedModel _ _ _ _ _ cf _ _ _ _ => Some cf
  | FallbackModel _ _ _ _ _ _ _ _ _ _ _ => None
  end.

(** [scenarios["base_case"]], [scenarios["optimistic"]], [scenarios["pessimistic"]] *)
Definition base_case_of (sc : Scenarios) : option FinancialModel :=
  match sc with ThreeScenarios b _ _ => Some b | NoScenarios => None end.
Definition optimistic_of (sc : Scenarios) : option FinancialModel :=
  match sc with ThreeScenarios _ o _ => Some o | NoScenarios => None end.
Definition pessimistic_of (sc : Scenarios) : option FinancialModel :=
  match sc with ThreeScenarios _ _ p => Some p | NoScenarios => None end.

Section Engine.
Variable draws : nat -> Q.
Variable clock : nat -> datetime.

Definition growth_rates : list (string * Q) :=
  [("seed", 15 # 100); ("series_a", 25 # 100); ("series_b", 30 # 100); ("series_c", 20 # 100)]%Q.

(** The [for month in range(1, months + 1)] loop of [_project_revenue];
    [remaining] counts the iterations still to run. *)
Fixpoint revenue_loop (growth_rate : Q) (remaining month : nat)
    (monthly_revenue : PyVal) (revenue_data : list RevenueMonth)
    : M (list RevenueMonth) :=
  match remaining with
  | O => ret revenue_data
  | S remaining' =>
      let* jitter := np_random_normal draws in
      let growth_multiplier := (1 + growth_rate + jitter)%Q in
      let* monthly_revenue' :=
        lift (py_mul_float monthly_revenue (py_max (8 # 10)%Q growth_multiplier)) in
      revenue_loop growth_rate remaining' (S month) (PyFloat monthly_revenue')
        (revenue_data ++
          [{| rev_month := month;
              rev_revenue := py_round monthly_revenue' 2;
              rev_growth_rate := growth_rate;
              rev_cumulative_revenue :=
                py_round (py_sum (List.map rev_revenue revenue_data) + monthly_revenue') 2 |}])
  end.

Definition _project_revenue (current_revenue customer_count funding_stage : PyVal)
    : M RevenueProjections :=
  let months := 36%nat in
  let growth_rate := table_get growth_rates funding_stage (20 # 100)%Q in
  let* revenue_data := revenue_loop growth_rate months 1 current_revenue [] in
  ret {| monthly_revenue := revenue_data;
         annual_revenue := annual_sums (List.map rev_revenue revenue_data);
         revenue_total_36_months := py_sum (List.map rev_revenue revenue_data);
         average_monthly_growth := growth_rate |}.

Definition team_growth_rates : list (string * Q) :=
  [("seed", 10 # 100); ("series_a", 15 # 100); ("series_b", 20 # 100); ("series_c", 15 # 100)]%Q.

Definition base_salary : Q := 8000%Q.
Definition overhead_per_employee : Q := 2000%Q.

Fixpoint cost_loop (team_growth : Q) (remaining month : nat)
    (current_team_size : PyVal) (cost_data : list CostMonth)
    : result (list CostMonth) :=
  match remaining with
  | O => Return cost_data
  | S remaining' =>
      match py_mul_float current_team_size (1 + team_growth)%Q with
      | Raise e => Raise e
      | Return grown =>
          let current_team_size' := py_min grown 100%Q in
          let personnel := (current_team_size' * base_salary)%Q in
          let overhead := (current_team_size' * overhead_per_employee)%Q in
          let marketing := (personnel * (3 # 10))%Q in
          let other := (personnel * (2 # 10))%Q in
          let total := (personnel + overhead + marketing + other)%Q in
          cost_loop team_growth remaining' (S month) (PyFloat current_team_size')
            (cost_data ++
              [{| cost_month := month;
                  cost_team_size := py_round current_team_size' 1;
                  personnel_costs := py_round personnel 2;
                  overhead_costs := py_round overhead 2;
                  marketing_costs := py_round marketing 2;
                  other_costs := py_round other 2;
                  total_costs := py_round total 2 |}])
      end
  end.

Definition _project_costs (team_size funding_stage : PyVal) : M CostProjections :=
  let months := 36%nat in
  let team_growth := table_get team_growth_rates funding_stage (10 # 100)%Q in
  let* cost_data := lift (cost_loop team_growth months 1 team_size []) in
  ret {| monthly_costs := cost_data;
         annual_costs := annual_sums (List.map total_costs cost_data);
         costs_total_36_months := py_sum (List.map total_costs cost_data);
         average_monthly_burn :=
           (py_sum (List.map total_costs cost_data) / inject_Z (Z.of_nat (length cost_data)))%Q |}.

Fixpoint cash_flow_loop (revenue_projections : RevenueProjections)
    (cost_projections : CostProjections) (remaining month : nat)
    (current_cash : Q) (cash_flow_data : list CashFlowMonth)
    : result (list CashFlowMonth * Q) :=
  match remaining with
  | O => Return (cash_flow_data, current_cash)
  | S remaining' =>
      match py_index (monthly_revenue revenue_projections) (month - 1) with
      | Raise e => Raise e
      | Return r =>
          match py_index (monthly_costs cost_projections) (month - 1) with
          | Raise e => Raise e
          | Return c =>
              let revenue := rev_revenue r in
              let costs := total_costs c in
              let net := (revenue - costs)%Q in
              let current_cash' := (current_cash + net)%Q in
              cash_flow_loop revenue_projections cost_projections remaining' (S month)
                current_cash'
                (cash_flow_data ++
                  [{| cf_month := month;
                      cf_revenue := revenue;
                      cf_costs := costs;
                      net_cash_flow := py_round net 2;
                      cumulative_cash := py_round current_cash' 2;
                      runway_months :=
                        if Qlt_bool 0%Q costs
                        then Finite (py_round (current_cash' / costs) 1)
                        else Inf |}])
          end
      end
  end.

Definition _project_cash_flow (revenue_projections : RevenueProjections)
    (cost_projections : CostProjections) : M CashFlowProjections :=
  let months := 36%nat in
  let starting := 1000000%Q in
  let* looped :=
    lift (cash_flow_loop revenue_projections cost_projections months 1 starting []) in
  let cash_flow_data := fst looped in
  let current_cash := snd looped in
  ret {| monthly_cash_flow := cash_flow_data;
         starting_cash := starting;
         ending_cash := current_cash;
         total_net_cash_flow := (current_cash - starting)%Q;
         average_monthly_cash_flow :=
           (py_sum (List.map net_cash_flow cash_flow_data)
            / inject_Z (Z.of_nat (length cash_flow_data)))%Q |}.
Definition _calculate_unit_economics (startup_data : gmap string PyVal) : M UnitEconomics :=
  let current_revenue := py_get startup_data "current_revenue" (PyInt 0) in
  let customer_count := py_get startup_data "customer_count" (PyInt 1) in
  let* has_customers := lift (py_gt_zero customer_count) in
  let* arpu :=
    if has_customers : bool then lift (py_truediv current_revenue customer_count)
    else ret 0%Q in
  let cac := customer_acquisition_cost_default in
  let ltv := customer_lifetime_value_default in
  let ltv_cac := if Qlt_bool 0%Q cac then (ltv / cac)%Q else 0%Q in
  let payback_period := if Qlt_bool 0%Q arpu then Finite (cac / arpu)%Q else Inf in
  ret {| average_revenue_per_user := py_round arpu 2;
         customer_acquisition_cost := cac;
         customer_lifetime_value := ltv;
         churn_rate := churn_rate_default;
         ltv_cac_ratio := py_round ltv_cac 2;
         payback_period_months := py_round_inf payback_period 1;
         gross_margin := gross_margin_default;
         contribution_margin := py_round (arpu * gross_margin_default - cac) 2 |}.

Definition valuation_multiples : list (string * Q) :=
  [("seed", 5); ("series_a", 8); ("series_b", 10); ("series_c", 12)]%Q.

Definition _calculate_valuation (revenue_projections : RevenueProjections)
    (funding_stage : PyVal) : M ValuationModel :=
  let* annual :=
    if (2 <? length (annual_revenue revenue_projections))%nat
    then lift (py_index (annual_revenue revenue_projections) 2)
    else
      let* final_month :=
        lift (py_index (monthly_revenue revenue_projections)
                (length (monthly_revenue revenue_projections) - 1)) in
      ret (rev_revenue final_month * 12)%Q in
  let multiple := table_get valuation_multiples funding_stage 8%Q in
  let valuation := (annual * multiple)%Q in
  let* now := utcnow clock in
  ret {| projected_annual_revenue := py_round annual 2;
         valuation_multiple := multiple;
         estimated_valuation := py_round valuation 2;
         valuation_date := isoformat now;
         methodology := "Revenue multiple" |}.

Definition _calculate_key_metrics (revenue_projections : RevenueProjections)
    (cost_projections : CostProjections) : M KeyMetrics :=
  let total_revenue := revenue_total_36_months revenue_projections in
  let total_cost := costs_total_36_months cost_projections in
  let avg_revenue := (total_revenue / 36)%Q in
  let avg_costs := (total_cost / 36)%Q in
  ret {| km_total_revenue_36_months := py_round total_revenue 2;
         km_total_costs_36_months := py_round total_cost 2;
         net_profit_36_months := py_round (total_revenue - total_cost) 2;
         average_monthly_revenue := py_round avg_revenue 2;
         average_monthly_costs := py_round avg_costs 2;
         profit_margin :=
           if Qlt_bool 0%Q total_revenue
           then py_round ((total_revenue - total_cost) / total_revenue * 100) 2
           else 0%Q;
         revenue_growth_rate := average_monthly_growth revenue_projections;
         burn_rate := py_round avg_costs 2 |}.

(** [startup_data.copy()] followed by the assignment of the scaled
    ["current_revenue"]. *)
Definition scaled_copy (startup_data : gmap string PyVal) (factor : Q)
    : M (gmap string PyVal) :=
  let* scaled :=
    lift (py_mul_float (py_get startup_data "current_revenue" (PyInt 0)) factor) in
  ret (<["current_revenue" := PyFloat scaled]> startup_data).

(** [_create_scenarios]; [create_model] is the call
    [self.create_financial_model] it makes three times. *)
Definition _create_scenarios (create_model : gmap string PyVal -> M FinancialModel)
    (startup_data : gmap string PyVal) : M Scenarios :=
  let* base := create_model startup_data in
  let* optimistic_data := scaled_copy startup_data (12 # 10)%Q in
  let* optimistic := create_model optimistic_data in
  let* pessimistic_data := scaled_copy startup_data (8 # 10)%Q in
  let* pessimistic := create_model pessimistic_data in
  ret (ThreeScenarios base optimistic pessimistic).

Definition _create_fallback_financial_model (startup_data : gmap string PyVal)
    : M FinancialModel :=
  let* now := utcnow clock in
  ret (FallbackModel (py_get startup_data "name" (PyStr "Unknown")) (isoformat now)
         "36 months" 0 0 0 0 0 0 NoScenarios "fallback_data").

(** The body of the [try] in [create_financial_model]. *)
Definition create_financial_model_body
    (create_model : gmap string PyVal -> M FinancialModel)
    (startup_data : gmap string PyVal) : M FinancialModel :=
  let* _ := logger "Creating financial model" in
  let current_revenue := py_get startup_data "current_revenue" (PyInt 0) in
  let customer_count := py_get startup_data "customer_count" (PyInt 0) in
  let team_size := py_get startup_data "team_size" (PyInt 1) in
  let funding_stage := py_get startup_data "funding_stage" (PyStr "seed") in
  let* revenue_projections := _project_revenue current_revenue customer_count funding_stage in
  let* cost_projections := _project_costs team_size funding_stage in
  let* cash_flow_projections := _project_cash_flow revenue_projections cost_projections in
  let* unit_economics := _calculate_unit_economics startup_data in
  let* valuation_model := _calculate_valuation revenue_projections funding_stage in
  let* now := utcnow clock in
  let* key_metrics := _calculate_key_metrics revenue_projections cost_projections in
  let* scenarios := _create_scenarios create_model startup_data in
  let* _ := logger "Financial model created successfully" in
  ret (ComputedModel (py_get startup_data "name" PyNone) (isoformat now) "36 months"
         revenue_projections cost_projections cash_flow_projections
         unit_economics valuation_model key_metrics scenarios).

(** [create_financial_model]. The source calls itself through
    [_create_scenarios] on every path that reaches the ["scenarios"] entry,
    so the definition needs a measure the source does not have: [headroom]
    is the number of nested activations the interpreter's call stack still
    allows. With none left the activation fails with [RecursionError],
    which is an [Exception] and is handled by the [except] clause like any
    other. *)
Fixpoint create_financial_model (headroom : nat) (startup_data : gmap string PyVal)
    : M FinancialModel :=
  try_except
    (match headroom with
     | O => raise RecursionError
     | S headroom' =>
         create_financial_model_body (create_financial_model headroom') startup_data
     end)
    (fun _ =>
       let* _ := logger "Financial model creation failed" in
       _create_fallback_financial_model startup_data).
End Engine.

End FinancialModeler.

(** * content_generator.py: the body of a generation job *)

Module SlideGenerators.
Import ContentGenerator.

Global Instance result_ret : MRet result := fun A a => Return a.
Global Instance result_bind : MBind result :=
  fun A B f r =>
    match r with
    | Return a => f a
    | Raise e => Raise e
    end.

(** Keyword arguments, and dicts with string keys, in the order written. *)
Definition kwargs : Type := list (string * Json).

(** [d.get(key, default)] *)
Definition dict_get (d : kwargs) (key : string) (default : Json) : Json :=
  match List.find (fun kv => String.eqb (fst kv) key) d with
  | Some kv => snd kv
  | None => default
  end.

(** The binding of the arguments of a call [f(k1=v1, ..., **mapping)]: a key
    of [mapping] that is also an explicit keyword is a [TypeError]
    ("got multiple values for keyword argument"), raised before [f] runs. *)
Definition bind_keywords (explicit mapping : kwargs) : result kwargs :=
  if existsb (fun kv => existsb (String.eqb (fst kv)) (List.map fst explicit)) mapping
  then Raise TypeError
  else Return (explicit ++ mapping)%list.

(** Truth value of a JSON-like value, and [x or default]. *)
Definition falsy (v : Json) : bool :=
  match v with
  | JNull => true
  | JNum q => Qeq_bool q 0
  | JStr s => String.eqb s ""
  | JList l => match l with [] => true | _ => false end
  | JDict d => match d with [] => true | _ => false end
  end.
Definition py_or (v default : Json) : Json := if falsy v then default else v.

Definition of_string (s : option string) : Json :=
  match s with Some x => JStr x | None => JNull end.
Definition of_float (q : option Q) : Json :=
  match q with Some x => JNum x | None => JNull end.
Definition of_int (z : option Z) : Json :=
  match z with Some x => JNum (inject_Z x) | None => JNull end.

Section Body.
(** The columns of the startup that the record does not list, by name;
    [JNull] for a null column. *)
Variable column : Startup -> string -> Json.
(** [get_prompt_template(slide_type, industry)] *)
Variable get_prompt_template : SlideType -> string -> string.
(** [str.format] with keyword arguments, [json.dumps] and [json.loads] *)
Variable format : string -> kwargs -> result string.
Variable json_dumps : Json -> string.
Variable json_loads : string -> result kwargs.
(** What the chat completion of the [k]-th generation request yields for a
    prompt and a token limit: the text of the first choice, or the exception
    raised on the way to it (no client, a failed call, a choice without
    text). *)
Variable completion : nat -> string -> Z -> result string.
(** [datetime.now().strftime("%B %Y")] during the [k]-th request. *)
Variable month_and_year : nat -> string.

(** [_call_openai]: a reply is parsed only when it starts with a brace. *)
Definition _call_openai (k : nat) (prompt : string) (max_tokens : Z) : result kwargs :=
  content ← completion k prompt max_tokens;
  if String.prefix "{" content then json_loads content
  else Return [("content", JStr content)].

Definition _prepare_context_data (startup : Startup) (slide_type : SlideType) : kwargs :=
  [("company_name", JStr (name startup));
   ("industry", JStr (industry startup));
   ("funding_stage", JStr (funding_stage startup));
   ("revenue_model", JStr (revenue_model startup));
   ("target_market", py_or (column startup "target_market") (JStr ""));
   ("problem_statement", py_or (column startup "problem_statement") (JStr ""));
   ("solution_description", py_or (column startup "solution_description") (JStr ""));
   ("unique_value_proposition",
     py_or (column startup "unique_value_proposition") (JStr ""));
   ("team_size", py_or (of_int (team_size startup)) (JNum 0));
   ("customer_count", py_or (of_int (customer_count startup)) (JNum 0));
   ("current_revenue", py_or (of_float (current_revenue startup)) (JNum 0));
   ("funding_ask", py_or (of_float (funding_ask startup)) (JNum 0));
   ("slide_type", JStr (value slide_type))].

Definition _generate_title_slide (k : nat) (startup : Startup) (prompt_template : string)
    (context_data : kwargs) : result Json :=
  arguments ← bind_keywords
    [("company_name", JStr (name startup));
     ("tagline", py_or (of_string (tagline startup)) (JStr ""));
     ("industry", JStr (industry startup))] context_data;
  prompt ← format prompt_template arguments;
  response ← _call_openai k prompt 200;
  Return (JDict
    [("title", JStr (name startup));
     ("subtitle", of_string (tagline startup));
     ("content", JDict
        [("headline", dict_get response "headline" (JStr (name startup)));
         ("subheadline", dict_get response "subheadline" (of_string (tagline startup)));
         ("presenter_info", dict_get response "presenter_info" (JStr ""));
         ("date", JStr (month_and_year k))]);
     ("layout", JStr "title_center")]).

Definition _generate_problem_slide (k : nat) (startup : Startup) (prompt_template : string)
    (context_data : kwargs) : result Json :=
  arguments ← bind_keywords
    [("problem_statement", py_or (column startup "problem_statement") (JStr ""));
     ("industry", JStr (industry startup));
     ("target_market", py_or (column startup "target_market") (JStr ""))] context_data;
  prompt ← format prompt_template arguments;
  response ← _call_openai k prompt 400;
  Return (JDict
    [("title", JStr "The Problem");
     ("content", JDict
        [("problem_statement",
           dict_get response "problem_statement" (column startup "problem_statement"));
         ("pain_points", dict_get response "pain_points" (JList []));
         ("market_size_impact", dict_get response "market_size_impact" (JStr ""));
         ("urgency", dict_get response "urgency" (JStr ""))]);
     ("bullet_points", dict_get response "pain_points" (JList []));
     ("layout", JStr "bullet_points")]).

Definition _generate_solution_slide (k : nat) (startup : Startup) (prompt_template : string)
    (context_data : kwargs) : result Json :=
  arguments ← bind_keywords
    [("solution_description", py_or (column startup "solution_description") (JStr ""));
     ("unique_value_proposition",
       py_or (column startup "unique_value_proposition") (JStr ""))] context_data;
  prompt ← format prompt_template arguments;
  response ← _call_openai k prompt 400;
  Return (JDict
    [("title", JStr "Our Solution");
     ("content", JDict
        [("solution_overview",
           dict_get response "solution_overview" (column startup "solution_description"));
         ("key_features", dict_get response "key_features" (JList []));
         ("unique_advantages", dict_get response "unique_advantages" (JList []));
         ("value_proposition",
           dict_get response "value_proposition"
             (column startup "unique_value_proposition"))]);
     ("bullet_points", dict_get response "key_features" (JList []));
     ("layout", JStr "two_column")]).

(** The ["key_metrics"] list of the market slide. *)
Definition market_key_metrics (startup : Startup) : Json :=
  JList
    [JDict [("name", JStr "TAM"); ("value", column startup "market_size_tam");
            ("unit", JStr "USD")];
     JDict [("name", JStr "SAM"); ("value", column startup "market_size_sam");
            ("unit", JStr "USD")];
     JDict [("name", JStr "SOM"); ("value", column startup "market_size_som");
            ("unit", JStr "USD")];
     JDict [("name", JStr "Growth Rate"); ("value", column startup "market_growth_rate");
            ("unit", JStr "%")]].

Definition _generate_market_slide (k : nat) (startup : Startup) (prompt_template : string)
    (context_data : kwargs) : result Json :=
  arguments ← bind_keywords
    [("market_size_tam", py_or (column startup "market_size_tam") (JNum 0));
     ("market_size_sam", py_or (column startup "market_size_sam") (JNum 0));
     ("market_size_som", py_or (column startup "market_size_som") (JNum 0));
     ("market_growth_rate", py_or (column startup "market_growth_rate") (JNum 0))]
    context_data;
  prompt ← format prompt_template arguments;
  response ← _call_openai k prompt 500;
  Return (JDict
    [("title", JStr "Market Opportunity");
     ("content", JDict
        [("market_overview", dict_get response "market_overview" (JStr ""));
         ("market_size", JDict
            [("tam", column startup "market_size_tam");
             ("sam", column startup "market_size_sam");
             ("som", column startup "market_size_som")]);
         ("growth_drivers", dict_get response "growth_drivers" (JList []));
         ("market_timing", dict_get response "market_timing" (JStr ""))]);
     ("key_metrics", market_key_metrics startup);
     ("layout", JStr "chart")]).

Definition _generate_business_model_slide (k : nat) (startup : Startup)
    (prompt_template : string) (context_data : kwargs) : result Json :=
  arguments ← bind_keywords
    [("revenue_model", JStr (revenue_model startup));
     ("current_revenue", py_or (of_float (current_revenue startup)) (JNum 0))]
    context_data;
  prompt ← format prompt_template arguments;
  response ← _call_openai k prompt 400;
  Return (JDict
    [("title", JStr "Business Model");
     ("content", JDict
        [("revenue_streams", dict_get response "revenue_streams" (JList []));
         ("pricing_strategy", dict_get response "pricing_strategy" (JStr ""));
         ("customer_segments", dict_get response "customer_segments" (JList []));
         ("cost_structure", dict_get response "cost_structure" (JStr ""))]);
     ("bullet_points", dict_get response "revenue_streams" (JList []));
     ("layout", JStr "grid")]).

Definition _generate_traction_slide (k : nat) (startup : Startup) (prompt_template : string)
    (context_data : kwargs) : result Json :=
  arguments ← bind_keywords
    [("customer_count", py_or (of_int (customer_count startup)) (JNum 0));
     ("user_count", py_or (column startup "user_count") (JNum 0));
     ("growth_rate", py_or (column startup "growth_rate") (JNum 0));
     ("achievements", py_or (column startup "achievements") (JStr ""))] context_data;
  prompt ← format prompt_template arguments;
  response ← _call_openai k prompt 400;
  Return (JDict
    [("title", JStr "Traction & Milestones");
     ("content", JDict
        [("key_metrics", dict_get response "key_metrics" (JList []));
         ("achievements", dict_get response "achievements" (JList []));
         ("growth_trajectory", dict_get response "growth_trajectory" (JStr ""));
         ("customer_testimonials", dict_get response "customer_testimonials" (JList []))]);
     ("key_metrics", JList
        [JDict [("name", JStr "Customers"); ("value", of_int (customer_count startup));
                ("unit", JStr "")];
         JDict [("name", JStr "Users"); ("value", column startup "user_count");
                ("unit", JStr "")];
         JDict [("name", JStr "Growth Rate"); ("value", column startup "growth_rate");
                ("unit", JStr "%")];
         JDict [("name", JStr "Revenue"); ("value", of_float (current_revenue startup));
                ("unit", JStr "USD")]]);
     ("layout", JStr "grid")]).

Definition _generate_competition_slide (k : nat) (startup : Startup)
    (prompt_template : string) (context_data : kwargs) : result Json :=
  let competitors := py_or (column startup "competitors") (JList []) in
  let competitive_advantages := py_or (column startup "competitive_advantages") (JStr "") in
  arguments ← bind_keywords
    [("competitors", JStr (json_dumps competitors));
     ("competitive_advantages", competitive_advantages)] context_data;
  prompt ← format prompt_template arguments;
  response ← _call_openai k prompt 400;
  Return (JDict
    [("title", JStr "Competitive Landscape");
     ("content", JDict
        [("competitor_analysis", dict_get response "competitor_analysis" (JList []));
         ("competitive_advantages", dict_get response "competitive_advantages" (JList []));
         ("market_positioning", dict_get response "market_positioning" (JStr ""));
         ("differentiation", dict_get response "differentiation" (JStr ""))]);
     ("bullet_points", dict_get response "competitive_advantages" (JList []));
     ("layout", JStr "comparison")]).

Definition _generate_team_slide (k : nat) (startup : Startup) (prompt_template : string)
    (context_data : kwargs) : result Json :=
  let team_members := py_or (column startup "key_team_members") (JList []) in
  let team_experience := py_or (column startup "team_experience") (JStr "") in
  arguments ← bind_keywords
    [("team_size", py_or (of_int (team_size startup)) (JNum 0));
     ("team_experience", team_experience);
     ("team_members", JStr (json_dumps team_members))] context_data;
  prompt ← format prompt_template arguments;
  response ← _call_openai k prompt 400;
  Return (JDict
    [("title", JStr "Our Team");
     ("content", JDict
        [("team_overview", dict_get response "team_overview" (JStr ""));
         ("key_members", dict_get response "key_members" (JList []));
         ("expertise_areas", dict_get response "expertise_areas" (JList []));
         ("advisors", dict_get response "advisors" (JList []))]);
     ("bullet_points", dict_get response "expertise_areas" (JList []));
     ("layout", JStr "grid")]).

Definition _generate_financials_slide (k : nat) (startup : Startup)
    (prompt_template : string) (context_data : kwargs) : result Json :=
  let financial_projections := py_or (column startup "financial_projections") (JDict []) in
  let unit_economics := py_or (column startup "unit_economics") (JDict []) in
  arguments ← bind_keywords
    [("current_revenue", py_or (of_float (current_revenue startup)) (JNum 0));
     ("burn_rate", py_or (column startup "burn_rate") (JNum 0));
     ("runway_months", py_or (column startup "runway_months") (JNum 0));
     ("financial_projections", JStr (json_dumps financial_projections))] context_data;
  prompt ← format prompt_template arguments;
  response ← _call_openai k prompt 500;
  Return (JDict
    [("title", JStr "Financial Projections");
     ("content", JDict
        [("revenue_projections", dict_get response "revenue_projections" (JDict []));
         ("unit_economics", dict_get response "unit_economics" (JDict []));
         ("funding_utilization", dict_get response "funding_utilization" (JStr ""));
         ("path_to_profitability", dict_get response "path_to_profitability" (JStr ""))]);
     ("key_metrics", JList
        [JDict [("name", JStr "Current Revenue");
                ("value", of_float (current_revenue startup)); ("unit", JStr "USD")];
         JDict [("name", JStr "Burn Rate"); ("value", column startup "burn_rate");
                ("unit", JStr "USD/month")];
         JDict [("name", JStr "Runway"); ("value", column startup "runway_months");
                ("unit", JStr "months")]]);
     ("layout", JStr "chart")]).

Definition _generate_funding_slide (k : nat) (startup : Startup) (prompt_template : string)
    (context_data : kwargs) : result Json :=
  arguments ← bind_keywords
    [("funding_ask", py_or (of_float (funding_ask startup)) (JNum 0));
     ("use_of_funds", py_or (column startup "use_of_funds") (JStr ""));
     ("current_valuation", py_or (column startup "current_valuation") (JNum 0))]
    context_data;
  prompt ← format prompt_template arguments;
  response ← _call_openai k prompt 400;
  Return (JDict
    [("title", JStr "Funding Ask");
     ("content", JDict
        [("funding_amount",
           dict_get response "funding_amount" (of_float (funding_ask startup)));
         ("use_of_funds", dict_get response "use_of_funds" (JList []));
         ("valuation", dict_get response "valuation" (column startup "current_valuation"));
         ("milestones", dict_get response "milestones" (JList []))]);
     ("bullet_points", dict_get response "use_of_funds" (JList []));
     ("layout", JStr "bullet_points")]).

Definition _generate_custom_slide (k : nat) (startup : Startup) (slide_type : SlideType)
    (prompt_template : string) (context_data : kwargs) : result Json :=
  arguments ← bind_keywords [("slide_type", JStr (value slide_type))] context_data;
  prompt ← format prompt_template arguments;
  response ← _call_openai k prompt 400;
  Return (JDict
    [("title", dict_get response "title" (JStr (str_title (value slide_type))));
     ("content", dict_get response "content" (JDict []));
     ("bullet_points", dict_get response "bullet_points" (JList []));
     ("layout", dict_get response "layout" (JStr "bullet_points"))]).

(** What [generate_slide_content] does for the [k]-th request between its
    first log line and its [return]: the template, the context data and the
    generator of the slide type. *)
Definition slide_body (k : nat) (startup : Startup) (slide_type : SlideType) : result Json :=
  let prompt_template := get_prompt_template slide_type (industry startup) in
  let context_data := _prepare_context_data startup slide_type in
  match slide_type with
  | TITLE => _generate_title_slide k startup prompt_template context_data
  | PROBLEM => _generate_problem_slide k startup prompt_template context_data
  | SOLUTION => _generate_solution_slide k startup prompt_template context_data
  | MARKET_OPPORTUNITY => _generate_market_slide k startup prompt_template context_data
  | BUSINESS_MODEL => _generate_business_model_slide k startup prompt_template context_data
  | TRACTION => _generate_traction_slide k startup prompt_template context_data
  | COMPETITION => _generate_competition_slide k startup prompt_template context_data
  | TEAM => _generate_team_slide k startup prompt_template context_data
  | FINANCIALS => _generate_financials_slide k startup prompt_template context_data
  | FUNDING_ASK => _generate_funding_slide k startup prompt_template context_data
  | ROADMAP | CONTACT | CUSTOM =>
      _generate_custom_slide k startup slide_type prompt_template context_data
  end.
End Body.

End SlideGenerators.

(** * tasks/generation_tasks.py *)

Module GenerationTasks.
Import FinancialModeler.


Section Tasks.
Variable draws : nat -> Q.
Variable clock : nat -> datetime.

End Tasks.

End GenerationTasks.

(** * utils/rate_limiter.py *)

Module RateLimiter.

(** [RateLimiter]: the request times kept per client and the two limits
    read from the environment when the limiter is built. Times are the
    floats of [time.time()]. *)
Record RateLimiter : Type := {
  requests : gmap string (list Q);
  rate_limit_per_minute : Z;
  rate_limit_per_hour : Z
}.

(** What a call of [is_allowed] leaves behind: its return value, the
    limiter as mutated, and the warning handed to the logger, if any. *)
Record Verdict : Type := {
  allowed : bool;
  limiter : RateLimiter;
  warning : option string
}.

(** [[t for t in times if current_time - t < window]] *)
Definition within (window current_time : Q) (times : list Q) : list Q :=
  List.filter (fun req_time => Qlt_bool (current_time - req_time) window) times.

Definition set_requests (self : RateLimiter) (reqs : gmap string (list Q)) : RateLimiter :=
  {| requests := reqs;
     rate_limit_per_minute := rate_limit_per_minute self;
     rate_limit_per_hour := rate_limit_per_hour self |}.

(** [is_allowed], with the reading [current_time] of [time.time()]. *)
Definition is_allowed (self : RateLimiter) (client_id : string) (current_time : Q) : Verdict :=
  let stored :=
    match requests self !! client_id with
    | Some times => times
    | None => []
    end in
  let kept := within 3600 current_time stored in
  let cleaned := set_requests self (<[client_id := kept]> (requests self)) in
  let requests_last_minute := Z.of_nat (length (within 60 current_time kept)) in
  let requests_last_hour := Z.of_nat (length kept) in
  if rate_limit_per_minute self <=? requests_last_minute then
    {| allowed := false; limiter := cleaned;
       warning := Some "Rate limit exceeded per minute" |}
  else if rate_limit_per_hour self <=? requests_last_hour then
    {| allowed := false; limiter := cleaned;
       warning := Some "Rate limit exceeded per hour" |}
  else
    {| allowed := true;
       limiter :=
         set_requests self (<[client_id := (kept ++ [current_time])%list]> (requests self));
       warning := None |}.

(** [get_remaining_requests]: the pair of ["per_minute"] and ["per_hour"]. *)
Definition get_remaining_requests (self : RateLimiter) (client_id : string)
    (current_time : Q) : Z * Z :=
  match requests self !! client_id with
  | None => (rate_limit_per_minute self, rate_limit_per_hour self)
  | Some times =>
      (Z.max 0 (rate_limit_per_minute self
                - Z.of_nat (length (within 60 current_time times))),
       Z.max 0 (rate_limit_per_hour self
                - Z.of_nat (length (within 3600 current_time times))))
  end.



End RateLimiter.

(** * Specification-side definitions and sample data *)

(** A number of whole cents. *)
Definition cents (q : Q) : Prop := exists z : Z, (q == z # 100)%Q.

Definition initial_world : World :=
  {| rand_idx := 0; clock_idx := 0; api_idx := 0; log := [] |}.

(** A clock that advances by one second per reading. *)
Definition ticking_clock (n : nat) : datetime :=
  {| year := 2024; month := 1; day := 2; hour := 3; minute := 4;
     second := n mod 60; microsecond := 0 |}.

Module FinancialModelerSpec.
Import FinancialModeler.

(** The factor a month applies to the running revenue when it draws
    [jitter]. *)
Definition growth_multiplier (growth_rate jitter : Q) : Q :=
  py_max (8 # 10)%Q (1 + growth_rate + jitter)%Q.

(** The running [monthly_revenue] after [k] months, started at [x] when the
    generator stood at sample [s]. *)
Fixpoint running_revenue (draws : nat -> Q) (growth_rate : Q) (s : nat) (x : Q) (k : nat) : Q :=
  match k with
  | O => x
  | S k' =>
      (running_revenue draws growth_rate s x k'
       * growth_multiplier growth_rate (draws (s + k')%nat))%Q
  end.

Definition is_float (v : PyVal) : bool :=
  match float_of v with
  | Return _ => true
  | Raise _ => false
  end.

(** A profile whose three numeric fields, where present, are numbers that
    convert to floats. *)
Definition numeric_profile (d : gmap string PyVal) : bool :=
  is_float (py_get d "current_revenue" (PyInt 0))
  && is_float (py_get d "team_size" (PyInt 1))
  && is_float (py_get d "customer_count" (PyInt 1)).

(** Depth to which scenario models are nested in a model, and the number of
    models it holds in all. *)
Fixpoint nesting (m : FinancialModel) : nat :=
  match m with
  | ComputedModel _ _ _ _ _ _ _ _ _ sc => S (nesting_scenarios sc)
  | FallbackModel _ _ _ _ _ _ _ _ _ _ _ => 0
  end
with nesting_scenarios (sc : Scenarios) : nat :=
  match sc with
  | NoScenarios => 0
  | ThreeScenarios b o p => Nat.max (nesting b) (Nat.max (nesting o) (nesting p))
  end.

Fixpoint models_in (m : FinancialModel) : nat :=
  match m with
  | ComputedModel _ _ _ _ _ _ _ _ _ sc => S (models_in_scenarios sc)
  | FallbackModel _ _ _ _ _ _ _ _ _ _ _ => 1
  end
with models_in_scenarios (sc : Scenarios) : nat :=
  match sc with
  | NoScenarios => 0
  | ThreeScenarios b o p => (models_in b + models_in o + models_in p)%nat
  end.


(** The record [_create_fallback_financial_model] builds for a profile when
    the clock reads [now]. *)
Definition fallback_model (startup_data : gmap string PyVal) (now : datetime)
    : FinancialModel :=
  FallbackModel (py_get startup_data "name" (PyStr "Unknown")) (isoformat now)
    "36 months" 0 0 0 0 0 0 NoScenarios "fallback_data".

(** The first monthly revenue record of a model. *)
Definition first_month_revenue (m : FinancialModel) : option Q :=
  match revenue_projections_of m with
  | Some rp =>
      match monthly_revenue rp with
      | r :: _ => Some (rev_revenue r)
      | [] => None
      end
  | None => None
  end.

Definition sample_profile : gmap string PyVal :=
  {[ "name" := PyStr "Acme";
     "current_revenue" := PyFloat 50000%Q;
     "customer_count" := PyInt 100;
     "team_size" := PyInt 5;
     "funding_stage" := PyStr "seed" ]}.


Definition no_jitter (n : nat) : Q := 0%Q.

(** A generator whose first two samples are three and seven standard
    deviations below the mean. *)
Definition slump (n : nat) : Q :=
  match n with
  | 0%nat => (- (15 # 100))%Q
  | 1%nat => (- (35 # 100))%Q
  | _ => 0%Q
  end.

End FinancialModelerSpec.

Module MarketResearcherSpec.


End MarketResearcherSpec.

Module ContentGeneratorSpec.
Import ContentGenerator.

(** The ["content"] entry of the fallback record. *)
Definition fallback_payload (slide_type : SlideType) : Json :=
  JDict [("title", JStr (str_title (str_replace "_" " " (value slide_type))));
         ("content", JStr ("Content for " ++ value slide_type ++ " slide"));
         ("bullet_points",
           JList [JStr "Sample bullet point 1"; JStr "Sample bullet point 2"]);
         ("layout", JStr "bullet_points")].

(** The record [_create_fallback_content] builds when the clock reads [now]. *)
Definition fallback_record (slide_type : SlideType) (now : datetime) : SlideContent :=
  {| slide_type := value slide_type;
     content := fallback_payload slide_type;
     generated_at := isoformat now;
     model_used := "fallback" |}.

(** What a job hands to [gather], given the outcome of its body. *)
Definition job_outcome (slide_type : SlideType) (body : result Json)
    (r : result SlideContent) : Prop :=
  match body with
  | Return payload =>
      exists now, r = Return {| slide_type := value slide_type; content := payload;
                                generated_at := isoformat now;
                                model_used := content_model |}
  | Raise e => r = Raise e
  end.

(** What the batch holds at the position of a job, given the outcome of the
    body of that job alone. *)
Definition slot (slide_type : SlideType) (body : result Json) (sc : SlideContent) : Prop :=
  match body with
  | Return payload =>
      exists now, sc = {| slide_type := value slide_type; content := payload;
                          generated_at := isoformat now;
                          model_used := content_model |}
  | Raise _ => exists now, sc = fallback_record slide_type now
  end.

(** The slide types a request stands for. *)
Definition requested (slide_types : option (list SlideType)) : list SlideType :=
  match slide_types with
  | Some (t :: ts) => t :: ts
  | _ => default_slide_types
  end.

Definition sample_startup : Startup :=
  {| id := "7f0c"; name := "Acme"; tagline := None; industry := "saas";
     funding_stage := "seed"; revenue_model := "subscription";
     current_revenue := Some 50000%Q; customer_count := Some 100;
     team_size := Some 5; funding_ask := None |}.

(** A provider that answers every request. *)
Definition always_answers (k : nat) (s : Startup) (t : SlideType) : result Json :=
  Return (JDict [("title", JStr (value t))]).

(** A provider whose second request times out. *)
Definition second_fails (k : nat) (s : Startup) (t : SlideType) : result Json :=
  if Nat.eqb k 1 then Raise (ProviderError "timeout")
  else Return (JDict [("title", JStr (value t))]).

End ContentGeneratorSpec.

Module FinancialModelerExtrasSpec.
Import FinancialModeler.

(** A projection of a single month, as a caller other than the engine might
    hand to the valuation. *)
Definition one_month_projection : RevenueProjections :=
  {| monthly_revenue :=
       [{| rev_month := 1; rev_revenue := 100%Q; rev_growth_rate := (15 # 100)%Q;
           rev_cumulative_revenue := 100%Q |}];
     annual_revenue := [100%Q];
     revenue_total_36_months := 100%Q;
     average_monthly_growth := (15 # 100)%Q |}.

(** A value that is [None] or a string, on which float arithmetic and
    comparison with a number raise [TypeError]. *)
Definition ill_typed (v : PyVal) : bool :=
  match v with
  | PyNone => true
  | PyStr _ => true
  | PyInt _ => false
  | PyFloat _ => false
  end.



End FinancialModelerExtrasSpec.

Module RateLimiterSpec.
Import RateLimiter.

(** A limiter that has seen no request. *)
Definition fresh (per_minute per_hour : Z) : RateLimiter :=
  {| requests := ∅; rate_limit_per_minute := per_minute; rate_limit_per_hour := per_hour |}.

(** The limiter after a series of [is_allowed] calls, each a client and the
    time of its call. *)
Fixpoint serve (self : RateLimiter) (calls : list (string * Q)) : RateLimiter :=
  match calls with
  | [] => self
  | (client_id, current_time) :: rest =>
      serve (limiter (is_allowed self client_id current_time)) rest
  end.

(** Calls whose times do not go back, the first not before [start]. *)
Fixpoint in_time_order (start : Q) (calls : list (string * Q)) : Prop :=
  match calls with
  | [] => True
  | (_, current_time) :: rest => (start <= current_time)%Q /\ in_time_order current_time rest
  end.

(** The time of the last call, [start] when there is none. *)
Fixpoint last_time (start : Q) (calls : list (string * Q)) : Q :=
  match calls with
  | [] => start
  | (_, current_time) :: rest => last_time current_time rest
  end.

(** At time [now] no client has more request times on record within the
    last minute, or within the last hour, than the limits allow. *)
Definition within_limits (self : RateLimiter) (now : Q) : Prop :=
  forall client_id times,
    requests self !! client_id = Some times ->
    Z.of_nat (length (within 60 now times)) <= rate_limit_per_minute self
    /\ Z.of_nat (length (within 3600 now times)) <= rate_limit_per_hour self.

Definition burst : list (string * Q) :=
  [("10.0.0.1", 0%Q); ("10.0.0.1", 1%Q); ("10.0.0.2", 1%Q); ("10.0.0.1", 2%Q);
   ("10.0.0.1", 100%Q)].

End RateLimiterSpec.

Module SlideGeneratorsSpec.
Import ContentGenerator SlideGenerators.

(** A startup with no optional column filled in, a template, a [format]
    that fills nothing in, and a provider that answers in prose. *)
Definition no_columns (startup : Startup) (key : string) : Json := JNull.
Definition one_template (slide_type : SlideType) (industry : string) : string :=
  "Create a slide for {company_name}.".
Definition template_as_it_is (template : string) (arguments : kwargs) : result string :=
  Return template.
Definition dumps_brackets (v : Json) : string := "[]".
Definition loads_nothing (text : string) : result kwargs := Return [].
Definition answers_in_prose (k : nat) (prompt : string) (max_tokens : Z) : result string :=
  Return "Here is the slide you asked for.".
Definition answers_briefly (k : nat) (prompt : string) (max_tokens : Z) : result string :=
  Return "Done.".
Definition every_month (k : nat) : string := "November 2026".

End SlideGeneratorsSpec.

(** * Properties of content_generator.py *)

Module ContentGeneratorProofs.
Import ContentGenerator ContentGeneratorSpec.
Local Open Scope list_scope.

Section Orchestrator.
Variable slide_body : nat -> Startup -> SlideType -> result Json.
Variable clock : nat -> datetime.

Lemma generate_slide_content_run startup slide_type w :
  exists r w',
    generate_slide_content slide_body clock startup slide_type w = (r, w')
    /\ api_idx w' = S (api_idx w)
    /\ job_outcome slide_type (slide_body (api_idx w) startup slide_type) r.
Proof.
  unfold generate_slide_content, try_except, bind, logger, run_slide_body,
    utcnow, ret, raise, job_outcome; simpl.
  destruct (slide_body (api_idx w) startup slide_type) as [payload | e]; simpl.
  - eexists _, _. repeat split; eauto.
  - eexists _, _. repeat split; eauto.
Qed.

Lemma create_fallback_content_run slide_type startup w :
  _create_fallback_content clock slide_type startup w
  = (Return (fallback_record slide_type (clock (clock_idx w))),
     {| rand_idx := rand_idx w; clock_idx := S (clock_idx w);
        api_idx := api_idx w; log := log w |}).
Proof. reflexivity. Qed.

(** [gather] lists, position by position, what each job produced; the job
    at position [j] is the [j]-th request after those already made. *)
Lemma gather_jobs startup slide_types : forall w,
  exists results w',
    gather (List.map (generate_slide_content slide_body clock startup) slide_types) w
    = (Return results, w')
    /\ length results = length slide_types
    /\ forall j t, slide_types !! j = Some t ->
         exists r, results !! j = Some r
           /\ job_outcome t (slide_body (api_idx w + j) startup t) r.
Proof.
  induction slide_types as [| t ts IH]; intros w.
  - exists [], w. simpl. repeat split; auto. intros j t Hj. destruct j; discriminate.
  - destruct (generate_slide_content_run startup t w) as (r & w1 & Hrun & Hidx & Hr).
    destruct (IH w1) as (rs & w2 & Hrest & Hlen & Hslots).
    exists (r :: rs), w2. simpl. rewrite Hrun, Hrest. repeat split.
    + simpl. congruence.
    + intros [| j] t' Hj; simpl in *.
      * injection Hj as <-. exists r. split; auto. now rewrite Nat.add_0_r.
      * destruct (Hslots j t' Hj) as (r' & Hr' & Ho). exists r'. split; auto.
        rewrite Hidx in Ho. now replace (api_idx w + S j)%nat with (S (api_idx w) + j)%nat by lia.
Qed.

(** The merge loop keeps a job's record at the job's position and puts the
    fallback record for the type at that position where the job raised. *)
Lemma merge_results_slots startup slide_types : forall results i acc w,
  (forall j, (j < length results)%nat -> is_Some (slide_types !! (i + j)%nat)) ->
  exists out w',
    merge_results clock startup slide_types i results acc w = (Return (acc ++ out), w')
    /\ length out = length results
    /\ forall j r, results !! j = Some r ->
         match r with
         | Return sc => out !! j = Some sc
         | Raise _ =>
             exists t now, slide_types !! (i + j)%nat = Some t
               /\ out !! j = Some (fallback_record t now)
         end.
Proof.
  induction results as [| r rs IH]; intros i acc w Hin.
  - exists [], w. simpl. rewrite app_nil_r. repeat split; auto.
    intros j r Hj. destruct j; discriminate.
  - assert (Hin' : forall j, (j < length rs)%nat -> is_Some (slide_types !! (S i + j)%nat)).
    { intros j Hj. specialize (Hin (S j)). simpl in Hin.
      replace (S i + j)%nat with (i + S j)%nat by lia. apply Hin. lia. }
    destruct r as [sc | e].
    + destruct (IH (S i) (acc ++ [sc]) w Hin') as (out & w' & Hrun & Hlen & Hslots).
      exists (sc :: out), w'. simpl. rewrite Hrun, <- app_assoc. simpl.
      repeat split; [congruence |].
      intros [| j] r Hj; simpl in *.
      * injection Hj as <-. reflexivity.
      * specialize (Hslots j r Hj). destruct r as [sc' | e']; auto.
        destruct Hslots as (t & now & Ht & Ho). exists t, now.
        now replace (i + S j)%nat with (S i + j)%nat by lia.
    + destruct (Hin 0%nat) as [t Ht]; [simpl; lia |]. rewrite Nat.add_0_r in Ht.
      set (w1 := {| rand_idx := rand_idx w; clock_idx := S (clock_idx w);
                    api_idx := api_idx w;
                    log := ("Failed to generate content for " ++ value t)%string :: log w |}).
      destruct (IH (S i) (acc ++ [fallback_record t (clock (clock_idx w))]) w1 Hin')
        as (out & w' & Hrun & Hlen & Hslots).
      exists (fallback_record t (clock (clock_idx w)) :: out), w'.
      split; [| split].
      * simpl. unfold bind at 1. unfold lift, py_index. rewrite Ht.
        unfold bind at 1. unfold logger at 1. unfold bind at 1.
        rewrite create_fallback_content_run. simpl.
        fold w1. rewrite Hrun, <- app_assoc. reflexivity.
      * simpl. congruence.
      * intros [| j] r Hj; simpl in *.
        -- injection Hj as <-. exists t, (clock (clock_idx w)).
           rewrite Nat.add_0_r. auto.
        -- specialize (Hslots j r Hj). destruct r as [sc' | e']; auto.
           destruct Hslots as (t' & now & Ht' & Ho). exists t', now.
           now replace (i + S j)%nat with (S i + j)%nat by lia.
Qed.
(** The whole batch: one record per type the request stands for, each
    determined by the outcome of the job at its own position. *)
Lemma orchestrator_slots startup slide_types w :
  exists out w',
    generate_pitch_deck_content slide_body clock startup slide_types w = (Return out, w')
    /\ length out = length (requested slide_types)
    /\ forall j t, requested slide_types !! j = Some t ->
         exists sc, out !! j = Some sc
           /\ slot t (slide_body (api_idx w + j) startup t) sc.
Proof.
  assert (Heff : (if py_not slide_types then default_slide_types
                  else match slide_types with Some l => l | None => [] end)
                 = requested slide_types).
  { destruct slide_types as [[| t ts] |]; reflexivity. }
  unfold generate_pitch_deck_content, try_except. rewrite Heff.
  set (types := requested slide_types).
  set (w0 := {| rand_idx := rand_idx w; clock_idx := clock_idx w; api_idx := api_idx w;
                log := "Starting pitch deck content generation" :: log w |}).
  destruct (gather_jobs startup types w0) as (results & w1 & Hg & Hlen & Hjobs).
  destruct (merge_results_slots startup types results 0 [] w1)
    as (out & w2 & Hm & Hlen' & Hslots).
  { intros j Hj. simpl. apply lookup_lt_is_Some. lia. }
  exists out. eexists.
  split; [| split].
  - unfold bind at 1. unfold logger at 1. fold w0.
    unfold bind at 1. rewrite Hg.
    unfold bind at 1. rewrite Hm. simpl. reflexivity.
  - lia.
  - intros j t Hj.
    destruct (Hjobs j t Hj) as (r & Hr & Ho).
    specialize (Hslots j r Hr). simpl in Ho.
    unfold slot. unfold job_outcome in Ho.
    destruct (slide_body (api_idx w + j) startup t) as [payload | e].
    + destruct Ho as (now & ->). exists {| slide_type := value t; content := payload;
        generated_at := isoformat now; model_used := content_model |}.
      split; eauto.
    + subst r. destruct Hslots as (t' & now & Ht' & Hout).
      simpl in Ht'. fold types in Hj. rewrite Hj in Ht'. injection Ht' as <-.
      exists (fallback_record t now). split; eauto.
Qed.

Lemma slot_slide_type t body sc : slot t body sc -> slide_type sc = value t.
Proof. unfold slot. destruct body; intros (now & ->); reflexivity. Qed.

Lemma slots_slide_types (types : list SlideType) (out : list SlideContent) :
  length out = length types ->
  (forall j t, types !! j = Some t ->
     exists sc, out !! j = Some sc /\ slide_type sc = value t) ->
  List.map slide_type out = List.map value types.
Proof.
  revert out. induction types as [| t ts IH]; intros [| sc out] Hlen Hs; try discriminate.
  - reflexivity.
  - simpl. f_equal.
    + destruct (Hs 0%nat t eq_refl) as (sc' & Hsc & Hty). now injection Hsc as <-.
    + apply IH; [simpl in Hlen; lia |]. intros j t' Hj. apply (Hs (S j) t' Hj).
Qed.

(** C1 (amended). A non-empty request of N slide types yields exactly N
    records whose [slide_type]s are the requested ones in the requested
    order; a request that is empty or absent yields the records of the ten
    default slide types, in their order. *)
Theorem generate_pitch_deck_content_order startup slide_types w :
  exists out w',
    generate_pitch_deck_content slide_body clock startup slide_types w = (Return out, w')
    /\ (forall t ts, slide_types = Some (t :: ts) ->
          length out = length (t :: ts)
          /\ List.map slide_type out = List.map value (t :: ts))
    /\ (slide_types = None \/ slide_types = Some [] ->
          length out = 10%nat
          /\ List.map slide_type out = List.map value default_slide_types).
Proof.
  destruct (orchestrator_slots startup slide_types w) as (out & w' & Hrun & Hlen & Hs).
  assert (Hmap : List.map slide_type out = List.map value (requested slide_types)).
  { apply slots_slide_types; [exact Hlen |]. intros j t Hj.
    destruct (Hs j t Hj) as (sc & Hsc & Hslot). exists sc. split; [exact Hsc |].
    eapply slot_slide_type; eauto. }
  exists out, w'. split; [exact Hrun |]. split.
  - intros t ts ->. split; [exact Hlen | exact Hmap].
  - intros [-> | ->]; split; first [exact Hlen | exact Hmap].
Qed.

(** C2. Whatever jobs of a batch fail, the batch has one record per
    requested slide type, at the position of that type; the record of a job
    that raised is the fallback record of its type, marked
    [model_used = "fallback"], and the record of a job that returned holds
    what that job produced, whatever happened to the other jobs. *)
Theorem failed_jobs_are_contained startup t ts w :
  exists out w',
    generate_pitch_deck_content slide_body clock startup (Some (t :: ts)) w
    = (Return out, w')
    /\ length out = length (t :: ts)
    /\ forall j tj, (t :: ts) !! j = Some tj ->
         exists sc, out !! j = Some sc
           /\ slide_type sc = value tj
           /\ match slide_body (api_idx w + j) startup tj with
              | Raise _ =>
                  model_used sc = "fallback" /\ content sc = fallback_payload tj
              | Return payload =>
                  model_used sc = content_model /\ content sc = payload
              end.
Proof.
  destruct (orchestrator_slots startup (Some (t :: ts)) w)
    as (out & w' & Hrun & Hlen & Hs).
  exists out, w'. split; [exact Hrun |]. split; [exact Hlen |].
  intros j tj Hj. destruct (Hs j tj Hj) as (sc & Hsc & Hslot).
  exists sc. split; [exact Hsc |]. split; [eapply slot_slide_type; eauto |].
  unfold slot in Hslot.
  destruct (slide_body (api_idx w + j) startup tj); destruct Hslot as (now & ->);
    split; reflexivity.
Qed.

End Orchestrator.

(** C1, counterexample: an empty request does not yield an empty result; the
    ten default slides are generated. *)
Lemma empty_request_yields_default_deck :
  match generate_pitch_deck_content always_answers ticking_clock sample_startup
          (Some []) initial_world with
  | (Return out, _) =>
      length out = 10%nat /\ List.map slide_type out <> List.map value []
  | _ => False
  end.
Proof. vm_compute. split; [reflexivity | discriminate]. Qed.

(** C2, the batch of three slide types whose second job fails. *)
Lemma three_slides_second_fails :
  exists out w',
    generate_pitch_deck_content second_fails ticking_clock sample_startup
      (Some [PROBLEM; SOLUTION; TEAM]) initial_world = (Return out, w')
    /\ length out = 3%nat
    /\ List.map slide_type out = ["problem"; "solution"; "team"]
    /\ List.map model_used out = ["gpt-4"; "fallback"; "gpt-4"].
Proof.
  destruct (failed_jobs_are_contained second_fails ticking_clock sample_startup
              PROBLEM [SOLUTION; TEAM] initial_world)
    as (out & w' & Hrun & Hlen & Hs).
  exists out, w'. split; [exact Hrun |]. clear Hrun. split; [exact Hlen |].
  destruct (Hs 0%nat PROBLEM eq_refl) as (s0 & H0 & Ht0 & Hm0 & _).
  destruct (Hs 1%nat SOLUTION eq_refl) as (s1 & H1 & Ht1 & Hm1 & _).
  destruct (Hs 2%nat TEAM eq_refl) as (s2 & H2 & Ht2 & Hm2 & _).
  clear Hs.
  destruct out as [| a [| b [| c [| d out]]]]; try discriminate Hlen.
  simpl in H0, H1, H2. injection H0 as ->. injection H1 as ->. injection H2 as ->.
  simpl. rewrite Ht0, Ht1, Ht2, Hm0, Hm1, Hm2. split; reflexivity.
Defined.


End ContentGeneratorProofs.

(** * Rounding to cents *)

Module Rounding.
Local Open Scope Q_scope.

Lemma Qlt_bool_true a b : Qlt_bool a b = true <-> a < b.
Proof.
  unfold Qlt_bool. rewrite negb_true_iff. split.
  - intros H. apply Qnot_le_lt. intros Hle. apply Qle_bool_iff in Hle. congruence.
  - intros H. destruct (Qle_bool b a) eqn:E; [| reflexivity].
    apply Qle_bool_iff in E. apply Qle_not_lt in E. contradiction.
Qed.

Lemma Qlt_bool_false a b : Qlt_bool a b = false <-> b <= a.
Proof.
  unfold Qlt_bool. rewrite negb_false_iff. apply Qle_bool_iff.
Qed.


Lemma py_min_cap a b : py_min a b <= b.
Proof.
  unfold py_min. destruct (Qlt_bool b a) eqn:E.
  - lra.
  - apply Qlt_bool_false in E. exact E.
Qed.


Lemma round_half_even_inject z : round_half_even (inject_Z z) = z.
Proof.
  unfold round_half_even. rewrite Qfloor_Z.
  assert (E : Qlt_bool (inject_Z z - inject_Z z) (1 # 2) = true).
  { apply Qlt_bool_true. lra. }
  now rewrite E.
Qed.

Lemma round_half_even_comp q q' : q == q' -> round_half_even q = round_half_even q'.
Proof.
  intros H. unfold round_half_even.
  assert (Hf : Qfloor q = Qfloor q') by (rewrite H; reflexivity).
  rewrite <- Hf.
  assert (H1 : Qlt_bool (q - inject_Z (Qfloor q)) (1 # 2)
               = Qlt_bool (q' - inject_Z (Qfloor q)) (1 # 2)).
  { unfold Qlt_bool. f_equal. apply eq_true_iff_eq. rewrite !Qle_bool_iff. split; intro; lra. }
  assert (H2 : Qlt_bool (1 # 2) (q - inject_Z (Qfloor q))
               = Qlt_bool (1 # 2) (q' - inject_Z (Qfloor q))).
  { unfold Qlt_bool. f_equal. apply eq_true_iff_eq. rewrite !Qle_bool_iff. split; intro; lra. }
  now rewrite H1, H2.
Qed.

Lemma py_round_2 q : py_round q 2 = Qmake (round_half_even (q * 100)) 100.
Proof. reflexivity. Qed.

Lemma py_round_comp q q' n : q == q' -> py_round q n = py_round q' n.
Proof.
  intros H. unfold py_round. f_equal. apply round_half_even_comp. now rewrite H.
Qed.

Lemma py_round_is_cents q : cents (py_round q 2).
Proof. rewrite py_round_2. eexists. reflexivity. Qed.

Lemma py_round_cents q : cents q -> py_round q 2 == q.
Proof.
  intros [z Hz]. rewrite py_round_2.
  assert (E : q * 100 == inject_Z z).
  { rewrite Hz. unfold Qeq, inject_Z. simpl. lia. }
  rewrite (round_half_even_comp _ _ E), round_half_even_inject. now rewrite Hz.
Qed.

Lemma cents_plus a b : cents a -> cents b -> cents (a + b).
Proof.
  intros [x Hx] [y Hy]. exists (x + y)%Z. rewrite Hx, Hy.
  unfold Qeq, Qplus. simpl. lia.
Qed.

Lemma cents_minus a b : cents a -> cents b -> cents (a - b).
Proof.
  intros [x Hx] [y Hy]. exists (x - y)%Z. rewrite Hx, Hy.
  unfold Qeq, Qminus, Qplus, Qopp. simpl. lia.
Qed.


Lemma cents_inject z : cents (inject_Z z).
Proof. exists (z * 100)%Z. unfold Qeq, inject_Z. simpl. lia. Qed.


End Rounding.

(** * Properties of financial_modeler.py *)

Module FinancialModelerProofs.
Import FinancialModeler FinancialModelerSpec Rounding.
Local Open Scope list_scope.

Lemma py_sum_acc : forall (l : list Q) (a : Q),
  (fold_left Qplus l a == a + fold_left Qplus l 0)%Q.
Proof.
  induction l as [| x l IH]; intros a; simpl.
  - lra.
  - rewrite (IH (a + x)%Q), (IH (0 + x)%Q). lra.
Qed.

Lemma py_sum_cons x l : (py_sum (x :: l) == x + py_sum l)%Q.
Proof. unfold py_sum. simpl. rewrite py_sum_acc. lra. Qed.


Lemma running_revenue_shift draws g s x k :
  running_revenue draws g s x (S k)
  = running_revenue draws g (S s) (x * growth_multiplier g (draws s))%Q k.
Proof.
  induction k as [| k IH].
  - simpl. now rewrite Nat.add_0_r.
  - change (running_revenue draws g s x (S (S k)))
      with (running_revenue draws g s x (S k)
            * growth_multiplier g (draws (s + S k)%nat))%Q.
    rewrite IH. simpl. now rewrite Nat.add_succ_r.
Qed.




Section Engine.
Variable draws : nat -> Q.
Variable clock : nat -> datetime.

(** The revenue loop never fails on a number; it takes one sample per
    month and records the rounded running revenue. *)
Lemma revenue_loop_run g : forall n month v x acc w,
  float_of v = Return x ->
  exists out w',
    revenue_loop draws g n month v acc w = (Return (acc ++ out), w')
    /\ length out = n
    /\ rand_idx w' = (rand_idx w + n)%nat
    /\ clock_idx w' = clock_idx w /\ api_idx w' = api_idx w /\ log w' = log w
    /\ forall j, (j < n)%nat ->
         exists r, out !! j = Some r
           /\ rev_month r = (month + j)%nat
           /\ rev_revenue r = py_round (running_revenue draws g (rand_idx w) x (S j)) 2.
Proof.
  induction n as [| n IH]; intros month v x acc w Hv.
  - exists [], w. simpl. rewrite app_nil_r, Nat.add_0_r.
    repeat split; auto. intros j Hj. lia.
  - set (x1 := (x * growth_multiplier g (draws (rand_idx w)))%Q).
    set (w1 := {| rand_idx := S (rand_idx w); clock_idx := clock_idx w;
                  api_idx := api_idx w; log := log w |}).
    set (rec := {| rev_month := month;
                   rev_revenue := py_round x1 2;
                   rev_growth_rate := g;
                   rev_cumulative_revenue :=
                     py_round (py_sum (List.map rev_revenue acc) + x1) 2 |}).
    destruct (IH (S month) (PyFloat x1) x1 (acc ++ [rec]) w1 eq_refl)
      as (out & w' & Hrun & Hlen & Hr & Hc & Ha & Hl & Hrec).
    exists (rec :: out), w'.
    split; [| repeat split].
    + cbn [revenue_loop]. unfold bind at 1. unfold np_random_normal at 1.
      unfold bind at 1. unfold lift, py_mul_float. rewrite Hv.
      fold w1. change (py_max (8 # 10) (1 + g + draws (rand_idx w)))%Q
        with (growth_multiplier g (draws (rand_idx w))).
      fold x1. fold rec. rewrite Hrun, <- app_assoc. reflexivity.
    + simpl. congruence.
    + rewrite Hr. simpl. lia.
    + exact Hc.
    + exact Ha.
    + exact Hl.
    + intros [| j] Hj.
      * exists rec. simpl. rewrite !Nat.add_0_r. repeat split; reflexivity.
      * destruct (Hrec j ltac:(lia)) as (r & Hr1 & Hr2 & Hr3).
        exists r. split; [exact Hr1 |]. split; [rewrite Hr2; lia |].
        rewrite Hr3. f_equal. symmetry. apply running_revenue_shift.
Qed.
Lemma annual_sums_length (l : list Q) :
  length l = 36%nat -> length (annual_sums l) = 3%nat.
Proof.
  intros H. unfold annual_sums. rewrite length_map, length_seq, H. reflexivity.
Qed.

Lemma project_revenue_run current_revenue customer_count funding_stage x w :
  float_of current_revenue = Return x ->
  exists rp w',
    _project_revenue draws current_revenue customer_count funding_stage w
    = (Return rp, w')
    /\ length (monthly_revenue rp) = 36%nat
    /\ length (annual_revenue rp) = 3%nat
    /\ rand_idx w' = (rand_idx w + 36)%nat
    /\ clock_idx w' = clock_idx w /\ api_idx w' = api_idx w /\ log w' = log w
    /\ forall j, (j < 36)%nat ->
         exists r, monthly_revenue rp !! j = Some r
           /\ rev_month r = S j
           /\ rev_revenue r
              = py_round (running_revenue draws
                            (table_get growth_rates funding_stage (20 # 100)%Q)
                            (rand_idx w) x (S j)) 2.
Proof.
  intros Hx.
  destruct (revenue_loop_run (table_get growth_rates funding_stage (20 # 100)%Q)
              36 1 current_revenue x [] w Hx)
    as (out & w' & Hrun & Hlen & Hr & Hc & Ha & Hl & Hrec).
  simpl app in Hrun.
  eexists. exists w'. split.
  - unfold _project_revenue. unfold bind. rewrite Hrun. reflexivity.
  - simpl. repeat split; auto.
    apply annual_sums_length. now rewrite length_map.
Qed.

(** The cost loop never fails on a number and records whole cents. *)
Lemma cost_loop_run g : forall n month v t acc,
  float_of v = Return t ->
  exists out,
    cost_loop g n month v acc = Return (acc ++ out)
    /\ length out = n
    /\ forall j c, out !! j = Some c -> cents (total_costs c).
Proof.
  induction n as [| n IH]; intros month v t acc Hv.
  - exists []. simpl. rewrite app_nil_r. repeat split; auto.
    intros j c Hj. destruct j; discriminate.
  - cbn [cost_loop]. unfold py_mul_float. rewrite Hv.
    set (size := py_min (t * (1 + g)) 100%Q).
    match goal with
    | |- context [cost_loop g n (S month) (PyFloat size) (acc ++ [?r])] => set (rec := r)
    end.
    destruct (IH (S month) (PyFloat size) size (acc ++ [rec]) eq_refl)
      as (out & Hrun & Hlen & Hc).
    exists (rec :: out). rewrite Hrun, <- app_assoc. repeat split.
    + simpl. congruence.
    + intros [| j] c Hj; simpl in Hj.
      * injection Hj as <-. apply py_round_is_cents.
      * eapply Hc; eauto.
Qed.

Lemma project_costs_run team_size funding_stage t w :
  float_of team_size = Return t ->
  exists cp,
    _project_costs team_size funding_stage w = (Return cp, w)
    /\ length (monthly_costs cp) = 36%nat
    /\ forall j c, monthly_costs cp !! j = Some c -> cents (total_costs c).
Proof.
  intros Ht.
  destruct (cost_loop_run (table_get team_growth_rates funding_stage (10 # 100)%Q)
              36 1 team_size t [] Ht) as (out & Hrun & Hlen & Hc).
  simpl app in Hrun.
  eexists. split.
  - unfold _project_costs, bind, lift. rewrite Hrun. reflexivity.
  - cbn [monthly_costs]. split; auto.
Qed.

(** The cash-flow loop over records of whole cents: the rounding of the
    net flow and of the running cash changes nothing, so the recorded
    cumulative cash is the cash at the start of the loop plus the recorded
    net flows so far. *)
Lemma cash_flow_loop_run rp cp : forall n m cash acc,
  cents cash ->
  (forall j r, monthly_revenue rp !! j = Some r -> cents (rev_revenue r)) ->
  (forall j c, monthly_costs cp !! j = Some c -> cents (total_costs c)) ->
  (m + n <= length (monthly_revenue rp))%nat ->
  (m + n <= length (monthly_costs cp))%nat ->
  exists out cash',
    cash_flow_loop rp cp n (S m) cash acc = Return (acc ++ out, cash')
    /\ length out = n
    /\ forall j, (j < n)%nat ->
         exists rec r c,
           out !! j = Some rec
           /\ monthly_revenue rp !! (m + j)%nat = Some r
           /\ monthly_costs cp !! (m + j)%nat = Some c
           /\ cf_month rec = S (m + j)
           /\ cf_revenue rec = rev_revenue r
           /\ cf_costs rec = total_costs c
           /\ (net_cash_flow rec == rev_revenue r - total_costs c)%Q
           /\ (cumulative_cash rec
               == cash + py_sum (List.map net_cash_flow (take (S j) out)))%Q.
Proof.
  induction n as [| n IH]; intros m cash acc Hcash Hrev Hcost Hlr Hlc.
  - exists [], cash. simpl. rewrite app_nil_r. repeat split; auto. intros j Hj. lia.
  - destruct (lookup_lt_is_Some_2 (monthly_revenue rp) m ltac:(lia)) as [r Hr].
    destruct (lookup_lt_is_Some_2 (monthly_costs cp) m ltac:(lia)) as [c Hc].
    pose proof (Hrev m r Hr) as Hrc. pose proof (Hcost m c Hc) as Hcc.
    assert (Hnet : cents (rev_revenue r - total_costs c)) by now apply cents_minus.
    assert (Hcash1 : cents (cash + (rev_revenue r - total_costs c))) by now apply cents_plus.
    cbn [cash_flow_loop]. replace (S m - 1)%nat with m by lia.
    unfold py_index. rewrite Hr, Hc.
    match goal with
    | |- context [cash_flow_loop rp cp n (S (S m)) ?cash1 (acc ++ [?x])] => set (rec := x)
    end.
    destruct (IH (S m) (cash + (rev_revenue r - total_costs c))%Q (acc ++ [rec])
                Hcash1 Hrev Hcost ltac:(lia) ltac:(lia))
      as (out & cash' & Hrun & Hlen & Hrec).
    exists (rec :: out), cash'. rewrite Hrun, <- app_assoc. repeat split.
    + simpl. congruence.
    + intros [| j] Hj.
      * exists rec, r, c. rewrite Nat.add_0_r. repeat split; auto.
        -- subst rec. cbn [net_cash_flow]. now apply py_round_cents.
        -- change (List.map net_cash_flow (take 1 (rec :: out)))
             with [net_cash_flow rec].
           unfold py_sum. cbn [fold_left]. subst rec. cbn [cumulative_cash net_cash_flow].
           rewrite (py_round_cents _ Hcash1), (py_round_cents _ Hnet). lra.
      * destruct (Hrec j ltac:(lia)) as (rec' & r' & c' & H1 & H2 & H3 & H4 & H5 & H6 & H7 & H8).
        exists rec', r', c'.
        replace (m + S j)%nat with (S m + j)%nat by lia.
        repeat split; auto.
        rewrite H8. change (take (S (S j)) (rec :: out)) with (rec :: take (S j) out).
        cbn [List.map]. rewrite py_sum_cons.
        subst rec. cbn [net_cash_flow]. rewrite (py_round_cents _ Hnet). lra.
Qed.
Lemma project_cash_flow_run rp cp w :
  (forall j r, monthly_revenue rp !! j = Some r -> cents (rev_revenue r)) ->
  (forall j c, monthly_costs cp !! j = Some c -> cents (total_costs c)) ->
  (36 <= length (monthly_revenue rp))%nat ->
  (36 <= length (monthly_costs cp))%nat ->
  exists cf,
    _project_cash_flow rp cp w = (Return cf, w)
    /\ starting_cash cf = 1000000%Q
    /\ length (monthly_cash_flow cf) = 36%nat
    /\ forall j, (j < 36)%nat ->
         exists rec r c,
           monthly_cash_flow cf !! j = Some rec
           /\ monthly_revenue rp !! j = Some r
           /\ monthly_costs cp !! j = Some c
           /\ cf_month rec = S j
           /\ cf_revenue rec = rev_revenue r
           /\ cf_costs rec = total_costs c
           /\ (net_cash_flow rec == rev_revenue r - total_costs c)%Q
           /\ (cumulative_cash rec
               == 1000000
                  + py_sum (List.map net_cash_flow (take (S j) (monthly_cash_flow cf))))%Q.
Proof.
  intros Hrev Hcost Hlr Hlc.
  destruct (cash_flow_loop_run rp cp 36 0 1000000%Q [] (cents_inject 1000000)
              Hrev Hcost ltac:(simpl; lia) ltac:(simpl; lia))
    as (out & cash' & Hrun & Hlen & Hrec).
  simpl app in Hrun.
  eexists. split; [| split; [| split]].
  - unfold _project_cash_flow, bind, lift. rewrite Hrun. reflexivity.
  - reflexivity.
  - exact Hlen.
  - cbn [monthly_cash_flow fst]. exact Hrec.
Qed.

Lemma py_get_insert_eq (d : gmap string PyVal) k v default :
  py_get (<[k := v]> d) k default = v.
Proof. unfold py_get. now rewrite lookup_insert_eq. Qed.

Lemma py_get_insert_ne (d : gmap string PyVal) k k' v default :
  k <> k' -> py_get (<[k := v]> d) k' default = py_get d k' default.
Proof. intros H. unfold py_get. now rewrite lookup_insert_ne. Qed.

Lemma float_max_int_pos : (0 < float_max_int)%Z.
Proof. reflexivity. Qed.

(** Dividing a number by a positive number never fails. *)
Lemma py_truediv_run a b x y :
  float_of a = Return x -> float_of b = Return y -> py_gt_zero b = Return true ->
  exists q, py_truediv a b = Return q /\ (q == x / y)%Q.
Proof.
  intros Ha Hb Hpos.
  destruct a as [| za | qa | sa]; try discriminate Ha;
    destruct b as [| zb | qb | sb]; try discriminate Hb.
  - (* int / int *)
    simpl in Ha, Hb, Hpos.
    destruct (Z.abs za <? float_max_int)%Z eqn:Ea; [| discriminate Ha].
    destruct (Z.abs zb <? float_max_int)%Z eqn:Eb; [| discriminate Hb].
    injection Ha as <-. injection Hb as <-. injection Hpos as Hpos.
    apply Z.ltb_lt in Ea, Hpos.
    unfold py_truediv.
    destruct (zb =? 0)%Z eqn:E0; [apply Z.eqb_eq in E0; lia |].
    assert (Hy : (0 < inject_Z zb)%Q).
    { change 0%Q with (inject_Z 0). now rewrite <- Zlt_Qlt. }
    assert (Hbound : Qlt_bool (Qabs (inject_Z za / inject_Z zb)) (inject_Z float_max_int)
                     = true).
    { apply Qlt_bool_true. apply Qabs_Qlt_condition. split.
      - apply Qlt_shift_div_l; [exact Hy |].
        rewrite <- inject_Z_opp, <- inject_Z_mult, <- Zlt_Qlt. nia.
      - apply Qlt_shift_div_r; [exact Hy |].
        rewrite <- inject_Z_mult, <- Zlt_Qlt. nia. }
    rewrite Hbound. eexists. split; [reflexivity | reflexivity].
  - (* int / float *)
    simpl in Hb, Hpos. injection Hb as <-. injection Hpos as Hpos.
    unfold py_truediv. rewrite Ha. cbn [float_of].
    destruct (Qeq_bool qb 0) eqn:E0.
    + apply Qeq_bool_iff in E0. apply negb_true_iff in Hpos.
      assert (Hle : (qb <= 0)%Q) by lra. apply Qle_bool_iff in Hle. congruence.
    + eexists. split; reflexivity.
  - (* float / int *)
    simpl in Ha. injection Ha as <-. simpl in Hpos. injection Hpos as Hpos.
    apply Z.ltb_lt in Hpos.
    unfold py_truediv. cbn [float_of]. simpl in Hb.
    destruct (Z.abs zb <? float_max_int)%Z; [| discriminate Hb]. injection Hb as <-.
    destruct (Qeq_bool (inject_Z zb) 0) eqn:E0.
    + apply Qeq_bool_iff in E0. unfold Qeq, inject_Z in E0. simpl in E0. lia.
    + eexists. split; reflexivity.
  - (* float / float *)
    simpl in Ha, Hb, Hpos. injection Ha as <-. injection Hb as <-. injection Hpos as Hpos.
    unfold py_truediv. cbn [float_of].
    destruct (Qeq_bool qb 0) eqn:E0.
    + apply Qeq_bool_iff in E0. apply negb_true_iff in Hpos.
      assert (Hle : (qb <= 0)%Q) by lra. apply Qle_bool_iff in Hle. congruence.
    + eexists. split; reflexivity.
Qed.

Lemma py_gt_zero_run v y : float_of v = Return y -> exists b, py_gt_zero v = Return b.
Proof. destruct v; try discriminate; intros _; eexists; reflexivity. Qed.

(** The record [_calculate_unit_economics] builds from the revenue per
    user. *)
Lemma unit_economics_of_arpu d w has_customers arpu :
  py_gt_zero (py_get d "customer_count" (PyInt 1)) = Return has_customers ->
  (if has_customers
   then py_truediv (py_get d "current_revenue" (PyInt 0))
          (py_get d "customer_count" (PyInt 1))
   else Return 0%Q) = Return arpu ->
  exists ue,
    _calculate_unit_economics d w = (Return ue, w)
    /\ average_revenue_per_user ue = py_round arpu 2
    /\ payback_period_months ue
       = py_round_inf (if Qlt_bool 0%Q arpu
                       then Finite (customer_acquisition_cost_default / arpu)%Q
                       else Inf) 1.
Proof.
  intros Hgt Hdiv. unfold _calculate_unit_economics.
  unfold bind at 1. unfold lift at 1. rewrite Hgt.
  destruct has_customers.
  - unfold bind at 1. unfold lift at 1. rewrite Hdiv.
    eexists. split; [reflexivity |]. split; reflexivity.
  - injection Hdiv as <-. eexists. split; [reflexivity |]. split; reflexivity.
Qed.

Lemma unit_economics_run d w x c :
  float_of (py_get d "current_revenue" (PyInt 0)) = Return x ->
  float_of (py_get d "customer_count" (PyInt 1)) = Return c ->
  exists ue, _calculate_unit_economics d w = (Return ue, w).
Proof.
  intros Hx Hc.
  destruct (py_gt_zero_run _ _ Hc) as [b Hb].
  destruct b.
  - destruct (py_truediv_run _ _ _ _ Hx Hc Hb) as (q & Hq & _).
    destruct (unit_economics_of_arpu d w true q Hb Hq) as (ue & Hue & _).
    now exists ue.
  - destruct (unit_economics_of_arpu d w false 0%Q Hb eq_refl) as (ue & Hue & _).
    now exists ue.
Qed.

Lemma create_financial_model_unfold h d :
  create_financial_model draws clock h d
  = try_except
      (match h with
       | O => raise RecursionError
       | S h' =>
           create_financial_model_body draws clock (create_financial_model draws clock h') d
       end)
      (fun _ =>
         let* _ := logger "Financial model creation failed" in
         _create_fallback_financial_model clock d)%py.
Proof. destruct h; reflexivity. Qed.

Lemma fallback_handler_run d w :
  exists w',
    (let* _ := logger "Financial model creation failed" in
     _create_fallback_financial_model clock d)%py w
    = (Return (fallback_model d (clock (clock_idx w))), w')
    /\ rand_idx w' = rand_idx w.
Proof. eexists. split; reflexivity. Qed.

(** The two ways [create_financial_model] ends: with what the body of its
    [try] returned, or with the fallback record when the body raised. *)
Lemma create_financial_model_outcome h d w :
  exists m w',
    create_financial_model draws clock h d w = (Return m, w')
    /\ (forall h' e wb,
          h = S h' ->
          create_financial_model_body draws clock
            (create_financial_model draws clock h') d w = (Raise e, wb) ->
          m = FallbackModel (py_get d "name" (PyStr "Unknown"))
                (isoformat (clock (clock_idx wb))) "36 months"
                0 0 0 0 0 0 NoScenarios "fallback_data"
          /\ source_of m = Some "fallback_data")
    /\ (forall h' m0 wb,
          h = S h' ->
          create_financial_model_body draws clock
            (create_financial_model draws clock h') d w = (Return m0, wb) ->
          m = m0 /\ w' = wb)
    /\ (h = 0%nat -> m = fallback_model d (clock (clock_idx w))).
Proof.
  rewrite create_financial_model_unfold. unfold try_except.
  destruct h as [| h'].
  - unfold raise. destruct (fallback_handler_run d w) as (w' & Hrun & _).
    rewrite Hrun. exists (fallback_model d (clock (clock_idx w))), w'.
    split; [reflexivity |]. repeat split; intros; discriminate.
  - destruct (create_financial_model_body draws clock
                (create_financial_model draws clock h') d w) as [[m0 | e] wb] eqn:Hbody.
    + exists m0, wb. split; [reflexivity |]. split; [| split].
      * intros h'' e wb' [= <-] Hr. rewrite Hbody in Hr. discriminate.
      * intros h'' m1 wb' [= <-] Hr. rewrite Hbody in Hr. now injection Hr as -> ->.
      * discriminate.
    + destruct (fallback_handler_run d wb) as (w' & Hrun & _). rewrite Hrun.
      exists (fallback_model d (clock (clock_idx wb))), w'.
      split; [reflexivity |]. split; [| split].
      * intros h'' e' wb' [= <-] Hr. rewrite Hbody in Hr. injection Hr as -> ->.
        split; reflexivity.
      * intros h'' m1 wb' [= <-] Hr. rewrite Hbody in Hr. discriminate.
      * discriminate.
Qed.


Lemma create_financial_model_returns h d w :
  exists m w', create_financial_model draws clock h d w = (Return m, w').
Proof.
  rewrite create_financial_model_unfold. unfold try_except.
  match goal with |- context [match ?b w with _ => _ end] => destruct (b w) as [[m | e] wb] end.
  - now exists m, wb.
  - destruct (fallback_handler_run d wb) as (w' & Hrun & _). rewrite Hrun. eauto.
Qed.

Lemma valuation_run rp funding_stage w :
  length (annual_revenue rp) = 3%nat ->
  exists v w',
    _calculate_valuation clock rp funding_stage w = (Return v, w')
    /\ rand_idx w' = rand_idx w.
Proof.
  intros Hlen. unfold _calculate_valuation. rewrite Hlen.
  change (2 <? 3)%nat with true. cbv iota.
  destruct (lookup_lt_is_Some_2 (annual_revenue rp) 2 ltac:(lia)) as [a Ha].
  unfold bind at 1. unfold lift, py_index. rewrite Ha.
  eexists _, _. split; reflexivity.
Qed.

Lemma scaled_copy_run d factor x w :
  float_of (py_get d "current_revenue" (PyInt 0)) = Return x ->
  scaled_copy d factor w = (Return (<["current_revenue" := PyFloat (x * factor)]> d), w).
Proof.
  intros Hx. unfold scaled_copy, bind, lift, py_mul_float. now rewrite Hx.
Qed.

Lemma project_costs_pure team_size funding_stage w w' :
  fst (_project_costs team_size funding_stage w)
  = fst (_project_costs team_size funding_stage w').
Proof.
  unfold _project_costs, bind, lift, ret.
  destruct (cost_loop _ _ _ _ _); reflexivity.
Qed.
Lemma project_revenue_cents current_revenue customer_count funding_stage x w rp w' :
  float_of current_revenue = Return x ->
  _project_revenue draws current_revenue customer_count funding_stage w = (Return rp, w') ->
  forall j r, monthly_revenue rp !! j = Some r -> cents (rev_revenue r).
Proof.
  intros Hx Hrun j r Hj.
  destruct (project_revenue_run current_revenue customer_count funding_stage x w Hx)
    as (rp' & w'' & Hrp & Hlr & _ & _ & _ & _ & _ & Hrec).
  rewrite Hrun in Hrp. injection Hrp as <- <-.
  assert (Hlt : (j < 36)%nat) by (rewrite <- Hlr; eapply lookup_lt_Some; eauto).
  destruct (Hrec j Hlt) as (r' & Hr' & _ & E). rewrite Hj in Hr'. injection Hr' as <-.
  rewrite E. apply py_round_is_cents.
Qed.

(** On a numeric profile nothing in the body of the [try] raises before
    the scenarios are forked, and the three scenarios are what
    [create_model] returns for the profile and for its two scaled copies. *)
Lemma body_run create_model d w x t c :
  (forall d' w', exists m w'', create_model d' w' = (Return m, w'')) ->
  float_of (py_get d "current_revenue" (PyInt 0)) = Return x ->
  float_of (py_get d "team_size" (PyInt 1)) = Return t ->
  float_of (py_get d "customer_count" (PyInt 1)) = Return c ->
  exists m wend w_fork base w1 opt w2 pess w3 rp cp,
    create_financial_model_body draws clock create_model d w = (Return m, wend)
    /\ create_model d w_fork = (Return base, w1)
    /\ create_model (<["current_revenue" := PyFloat (x * (12 # 10))]> d) w1
       = (Return opt, w2)
    /\ create_model (<["current_revenue" := PyFloat (x * (8 # 10))]> d) w2
       = (Return pess, w3)
    /\ scenarios_of m = ThreeScenarios base opt pess
    /\ revenue_projections_of m = Some rp
    /\ cost_projections_of m = Some cp
    /\ fst (_project_costs (py_get d "team_size" (PyInt 1))
              (py_get d "funding_stage" (PyStr "seed")) w) = Return cp
    /\ first_month_revenue m
       = Some (py_round
                 (x * growth_multiplier
                        (table_get growth_rates (py_get d "funding_stage" (PyStr "seed"))
                           (20 # 100)%Q)
                        (draws (rand_idx w))) 2)
    /\ rand_idx w_fork = (rand_idx w + 36)%nat.
Proof.
  intros Hcreate Hx Ht Hc.
  set (stage := py_get d "funding_stage" (PyStr "seed")).
  set (w0 := {| rand_idx := rand_idx w; clock_idx := clock_idx w; api_idx := api_idx w;
                log := "Creating financial model" :: log w |}).
  destruct (project_revenue_run (py_get d "current_revenue" (PyInt 0))
              (py_get d "customer_count" (PyInt 0)) stage x w0 Hx)
    as (rp & wa & Hrp & Hlr & Hla & Hra & _ & _ & _ & Hrec).
  pose proof (project_revenue_cents _ _ _ _ _ _ _ Hx Hrp) as Hrc.
  destruct (project_costs_run (py_get d "team_size" (PyInt 1)) stage t wa Ht)
    as (cp & Hcp & Hlc & Hcc).
  destruct (project_cash_flow_run rp cp wa Hrc Hcc ltac:(lia) ltac:(lia))
    as (cf & Hcf & _).
  destruct (unit_economics_run d wa x c Hx Hc) as (ue & Hue).
  destruct (valuation_run rp stage wa Hla) as (v & wb & Hv & Hrb).
  set (wc := {| rand_idx := rand_idx wb; clock_idx := S (clock_idx wb);
                api_idx := api_idx wb; log := log wb |}).
  destruct (Hcreate d wc) as (base & w1 & Hbase).
  destruct (Hcreate (<["current_revenue" := PyFloat (x * (12 # 10))]> d) w1)
    as (opt & w2 & Hopt).
  destruct (Hcreate (<["current_revenue" := PyFloat (x * (8 # 10))]> d) w2)
    as (pess & w3 & Hpess).
  assert (Hsc : _create_scenarios create_model d wc
                = (Return (ThreeScenarios base opt pess), w3)).
  { unfold _create_scenarios.
    unfold bind at 1. rewrite Hbase.
    unfold bind at 1. rewrite (scaled_copy_run d (12 # 10) x w1 Hx).
    unfold bind at 1. rewrite Hopt.
    unfold bind at 1. rewrite (scaled_copy_run d (8 # 10) x w2 Hx).
    unfold bind at 1. rewrite Hpess. reflexivity. }
  eexists _, _, wc, base, w1, opt, w2, pess, w3, rp, cp.
  split.
  { unfold create_financial_model_body.
    unfold bind at 1. unfold logger at 1. fold w0. fold stage.
    unfold bind at 1. rewrite Hrp.
    unfold bind at 1. rewrite Hcp.
    unfold bind at 1. rewrite Hcf.
    unfold bind at 1. rewrite Hue.
    unfold bind at 1. rewrite Hv.
    unfold bind at 1. unfold utcnow at 1. fold wc.
    unfold bind at 1. unfold _calculate_key_metrics at 1. unfold ret at 1.
    unfold bind at 1. rewrite Hsc.
    reflexivity. }
  split; [exact Hbase |]. split; [exact Hopt |]. split; [exact Hpess |].
  split; [reflexivity |]. split; [reflexivity |]. split; [reflexivity |].
  split; [| split].
  - pose proof (project_costs_pure (py_get d "team_size" (PyInt 1)) stage w wa) as Hp.
    rewrite Hp, Hcp. reflexivity.
  - unfold first_month_revenue. cbn [revenue_projections_of].
    destruct (Hrec 0%nat ltac:(lia)) as (r & Hr & _ & Er).
    destruct (monthly_revenue rp) as [| r0 rest]; [discriminate Hr |].
    injection Hr as ->. rewrite Er. simpl running_revenue.
    now rewrite Nat.add_0_r.
  - subst wc. simpl. rewrite Hrb, Hra. reflexivity.
Qed.

Lemma numeric_profile_fields d :
  numeric_profile d = true ->
  exists x t c,
    float_of (py_get d "current_revenue" (PyInt 0)) = Return x
    /\ float_of (py_get d "team_size" (PyInt 1)) = Return t
    /\ float_of (py_get d "customer_count" (PyInt 1)) = Return c.
Proof.
  unfold numeric_profile, is_float. intros H.
  apply andb_true_iff in H as [H Hc]. apply andb_true_iff in H as [Hx Ht].
  destruct (float_of (py_get d "current_revenue" (PyInt 0))) as [x |]; [| discriminate].
  destruct (float_of (py_get d "team_size" (PyInt 1))) as [t |]; [| discriminate].
  destruct (float_of (py_get d "customer_count" (PyInt 1))) as [c |]; [| discriminate].
  now exists x, t, c.
Qed.

Lemma numeric_profile_scaled d seed :
  numeric_profile d = true ->
  numeric_profile (<["current_revenue" := PyFloat seed]> d) = true.
Proof.
  unfold numeric_profile. intros H.
  apply andb_true_iff in H as [H Hc]. apply andb_true_iff in H as [_ Ht].
  rewrite py_get_insert_eq, !py_get_insert_ne by discriminate.
  rewrite Ht, Hc. reflexivity.
Qed.
(** With headroom left, [create_financial_model] on a numeric profile
    returns what the body of its [try] computes. *)
Lemma computed_model_run h d w x t c :
  float_of (py_get d "current_revenue" (PyInt 0)) = Return x ->
  float_of (py_get d "team_size" (PyInt 1)) = Return t ->
  float_of (py_get d "customer_count" (PyInt 1)) = Return c ->
  exists m wend w_fork base w1 opt w2 pess w3 rp cp,
    create_financial_model draws clock (S h) d w = (Return m, wend)
    /\ create_financial_model draws clock h d w_fork = (Return base, w1)
    /\ create_financial_model draws clock h
         (<["current_revenue" := PyFloat (x * (12 # 10))]> d) w1 = (Return opt, w2)
    /\ create_financial_model draws clock h
         (<["current_revenue" := PyFloat (x * (8 # 10))]> d) w2 = (Return pess, w3)
    /\ scenarios_of m = ThreeScenarios base opt pess
    /\ revenue_projections_of m = Some rp
    /\ cost_projections_of m = Some cp
    /\ fst (_project_costs (py_get d "team_size" (PyInt 1))
              (py_get d "funding_stage" (PyStr "seed")) w) = Return cp
    /\ first_month_revenue m
       = Some (py_round
                 (x * growth_multiplier
                        (table_get growth_rates (py_get d "funding_stage" (PyStr "seed"))
                           (20 # 100)%Q)
                        (draws (rand_idx w))) 2)
    /\ rand_idx w_fork = (rand_idx w + 36)%nat.
Proof.
  intros Hx Ht Hc.
  destruct (body_run (create_financial_model draws clock h) d w x t c
              (create_financial_model_returns h) Hx Ht Hc)
    as (m & wend & w_fork & base & w1 & opt & w2 & pess & w3 & rp & cp & Hbody & Hrest).
  destruct (create_financial_model_outcome (S h) d w)
    as (m' & w' & Hrun & _ & Hret & _).
  destruct (Hret h m wend eq_refl Hbody) as [-> ->].
  exists m, wend, w_fork, base, w1, opt, w2, pess, w3, rp, cp.
  split; [exact Hrun | exact Hrest].
Qed.

Lemma computed_model_size m rp :
  revenue_projections_of m = Some rp ->
  nesting m = S (nesting_scenarios (scenarios_of m))
  /\ models_in m = S (models_in_scenarios (scenarios_of m)).
Proof. destruct m; [split; reflexivity | discriminate]. Qed.

(** C9, what the code does instead. The recursion through
    [_create_scenarios] has no base case of its own: on a numeric profile
    every activation that the stack allows forks three more, on the same
    profile and on its two scaled copies, so the model returned is nested
    exactly as deep as the stack allowed and holds (3^(h+1) - 1) / 2 models
    for a headroom of [h] activations. *)
Theorem scenario_recursion_stops_only_at_stack_exhaustion : forall h d w,
  numeric_profile d = true ->
  exists m w',
    create_financial_model draws clock h d w = (Return m, w')
    /\ nesting m = h
    /\ (2 * models_in m + 1 = 3 ^ S h)%nat.
Proof.
  induction h as [| h IH]; intros d w Hd.
  - destruct (create_financial_model_outcome 0 d w) as (m & w' & Hrun & _ & _ & H0).
    exists m, w'. split; [exact Hrun |]. rewrite (H0 eq_refl). split; reflexivity.
  - destruct (numeric_profile_fields d Hd) as (x & t & c & Hx & Ht & Hc).
    destruct (computed_model_run h d w x t c Hx Ht Hc)
      as (m & wend & w_fork & base & w1 & opt & w2 & pess & w3 & rp & cp
          & Hrun & Hbase & Hopt & Hpess & Hsc & Hrp & _).
    destruct (IH d w_fork Hd) as (base' & w1' & Hb' & Hnb & Hmb).
    rewrite Hbase in Hb'. injection Hb' as <- <-.
    destruct (IH _ w1 (numeric_profile_scaled d (x * (12 # 10)) Hd))
      as (opt' & w2' & Ho' & Hno & Hmo).
    rewrite Hopt in Ho'. injection Ho' as <- <-.
    destruct (IH _ w2 (numeric_profile_scaled d (x * (8 # 10)) Hd))
      as (pess' & w3' & Hp' & Hnp & Hmp).
    rewrite Hpess in Hp'. injection Hp' as <- <-.
    destruct (computed_model_size m rp Hrp) as [Hn Hm].
    exists m, wend. split; [exact Hrun |].
    rewrite Hn, Hm, Hsc. cbn [nesting_scenarios models_in_scenarios].
    rewrite Hnb, Hno, Hnp. split; [lia |].
    rewrite (Nat.pow_succ_r' 3 (S h)). lia.
Qed.

End Engine.






(** A negative [current_revenue], which nothing in the engine refuses, grows
    in magnitude: -100 becomes -115 and then -132.25, below 0.8 times -115. *)
Lemma negative_revenue_breaks_growth_floor :
  match _project_revenue no_jitter (PyInt (-100)) (PyInt 0) (PyStr "seed")
          initial_world with
  | (Return rp, _) =>
      match monthly_revenue rp with
      | a :: b :: _ =>
          (rev_revenue a == - (115))%Q /\ (rev_revenue b == - (13225 # 100))%Q
          /\ ~ ((8 # 10) * rev_revenue a <= rev_revenue b)%Q
      | _ => False
      end
  | _ => False
  end.
Proof.
  vm_compute. split; [reflexivity |]. split; [reflexivity |].
  intros H. apply H. reflexivity.
Qed.

(** C9, on the sample profile with room for one activation below the
    first: four models are built. *)
Lemma sample_recursion_fills_the_stack :
  numeric_profile sample_profile = true
  /\ exists m w',
       create_financial_model no_jitter ticking_clock 1 sample_profile initial_world
       = (Return m, w')
       /\ nesting m = 1%nat /\ models_in m = 4%nat.
Proof.
  assert (H1 : numeric_profile sample_profile = true) by (vm_compute; reflexivity).
  split; [exact H1 |].
  destruct (scenario_recursion_stops_only_at_stack_exhaustion no_jitter ticking_clock 1
              sample_profile initial_world H1)
    as (m & w' & Hrun & Hn & Hm).
  exists m, w'. split; [exact Hrun |]. split; [exact Hn |].
  change (3 ^ 2)%nat with 9%nat in Hm. lia.
Defined.


End FinancialModelerProofs.

(** * Properties of market_researcher.py *)

Module MarketResearcherProofs.
Import MarketResearcher MarketResearcherSpec.



End MarketResearcherProofs.

(** * Further properties of financial_modeler.py *)

Module RoundingExtras.
Import Rounding.
Local Open Scope Q_scope.

(** Rounding to the nearest integer is monotone. *)
Lemma round_half_even_mono q q' : q <= q' -> (round_half_even q <= round_half_even q')%Z.
Proof.
  intros Hle.
  pose proof (Qfloor_resp_le _ _ Hle) as Hf.
  pose proof (Qfloor_le q) as Hlo. pose proof (Qlt_floor q) as Hhi.
  pose proof (Qfloor_le q') as Hlo'. pose proof (Qlt_floor q') as Hhi'.
  rewrite inject_Z_plus in Hhi, Hhi'. change (inject_Z 1) with 1 in Hhi, Hhi'.
  destruct (Z.eq_dec (Qfloor q) (Qfloor q')) as [Heq | Hne].
  - unfold round_half_even. rewrite <- Heq.
    destruct (Qlt_bool (q - inject_Z (Qfloor q)) (1 # 2)) eqn:E1;
      destruct (Qlt_bool (q' - inject_Z (Qfloor q)) (1 # 2)) eqn:E1';
      destruct (Qlt_bool (1 # 2) (q - inject_Z (Qfloor q))) eqn:E2;
      destruct (Qlt_bool (1 # 2) (q' - inject_Z (Qfloor q))) eqn:E2';
      try apply Qlt_bool_true in E1; try apply Qlt_bool_false in E1;
      try apply Qlt_bool_true in E1'; try apply Qlt_bool_false in E1';
      try apply Qlt_bool_true in E2; try apply Qlt_bool_false in E2;
      try apply Qlt_bool_true in E2'; try apply Qlt_bool_false in E2';
      try (exfalso; lra); destruct (Z.even (Qfloor q)); lia.
  - assert (Hlt : (Qfloor q + 1 <= Qfloor q')%Z) by lia.
    assert (H1 : (round_half_even q <= Qfloor q + 1)%Z).
    { unfold round_half_even.
      destruct (Qlt_bool _ _); [lia |]. destruct (Qlt_bool _ _); [lia |].
      destruct (Z.even _); lia. }
    assert (H2 : (Qfloor q' <= round_half_even q')%Z).
    { unfold round_half_even.
      destruct (Qlt_bool _ _); [lia |]. destruct (Qlt_bool _ _); [lia |].
      destruct (Z.even _); lia. }
    lia.
Qed.

Lemma py_round_1 q : py_round q 1 = Qmake (round_half_even (q * 10)) 10.
Proof. reflexivity. Qed.

Lemma py_round_2_mono q q' : q <= q' -> py_round q 2 <= py_round q' 2.
Proof.
  intros H. rewrite !py_round_2. unfold Qle. simpl.
  apply Z.mul_le_mono_nonneg_r; [lia |]. apply round_half_even_mono. lra.
Qed.

Lemma py_round_1_mono q q' : q <= q' -> py_round q 1 <= py_round q' 1.
Proof.
  intros H. rewrite !py_round_1. unfold Qle. simpl.
  apply Z.mul_le_mono_nonneg_r; [lia |]. apply round_half_even_mono. lra.
Qed.

Lemma py_round_zero q n : q == 0 -> py_round q n == 0.
Proof.
  intros H. rewrite (py_round_comp q 0 n H). unfold py_round.
  assert (E : round_half_even (0 * inject_Z (10 ^ Z.of_nat n)) = 0%Z).
  { rewrite (round_half_even_comp _ (inject_Z 0)); [apply round_half_even_inject |].
    change (inject_Z 0) with 0. lra. }
  rewrite E. reflexivity.
Qed.

End RoundingExtras.

Module FinancialModelerExtras.
Import FinancialModeler FinancialModelerSpec FinancialModelerExtrasSpec.
Import Rounding RoundingExtras FinancialModelerProofs.
Local Open Scope list_scope.







Section Engine.
Variable draws : nat -> Q.
Variable clock : nat -> datetime.

Lemma cost_loop_bounds g : forall n month v t acc,
  float_of v = Return t ->
  exists out,
    cost_loop g n month v acc = Return (acc ++ out)
    /\ length out = n
    /\ forall j c, out !! j = Some c ->
         cost_month c = (month + j)%nat
         /\ (cost_team_size c <= 100)%Q
         /\ (total_costs c <= 1400000)%Q.
Proof.
  induction n as [| n IH]; intros month v t acc Hv.
  - exists []. simpl. rewrite app_nil_r. repeat split; auto; destruct j; discriminate.
  - cbn [cost_loop]. unfold py_mul_float. rewrite Hv.
    set (size := py_min (t * (1 + g)) 100%Q).
    assert (Hsize : (size <= 100)%Q) by apply py_min_cap.
    match goal with
    | |- context [cost_loop g n (S month) (PyFloat size) (acc ++ [?r])] => set (rec := r)
    end.
    destruct (IH (S month) (PyFloat size) size (acc ++ [rec]) eq_refl)
      as (out & Hrun & Hlen & Hc).
    exists (rec :: out). rewrite Hrun, <- app_assoc. split; [reflexivity |].
    split; [simpl; congruence |].
    intros [| j] c Hj; simpl in Hj.
    + injection Hj as <-. subst rec. cbn [cost_month cost_team_size total_costs].
      split; [lia |]. split.
      * apply (Qle_trans _ (py_round 100 1)); [now apply py_round_1_mono |].
        vm_compute. discriminate.
      * apply (Qle_trans _ (py_round 1400000 2)).
        -- apply py_round_2_mono. unfold base_salary, overhead_per_employee. lra.
        -- vm_compute. discriminate.
    + destruct (Hc j c Hj) as (H1 & H2 & H3). split; [lia | split; assumption].
Qed.

(** X1. Whatever numeric team size the projection starts from, none of its
    36 monthly records has a team size above 100 or a total cost above
    1,400,000 (the cost of 100 heads at 14,000 each); the records are
    numbered 1 to 36. *)
Theorem team_size_never_exceeds_cap team_size funding_stage t w :
  float_of team_size = Return t ->
  exists cp,
    _project_costs team_size funding_stage w = (Return cp, w)
    /\ length (monthly_costs cp) = 36%nat
    /\ forall j c, monthly_costs cp !! j = Some c ->
         cost_month c = S j
         /\ (cost_team_size c <= 100)%Q
         /\ (total_costs c <= 1400000)%Q.
Proof.
  intros Ht.
  destruct (cost_loop_bounds (table_get team_growth_rates funding_stage (10 # 100)%Q)
              36 1 team_size t [] Ht) as (out & Hrun & Hlen & Hc).
  simpl app in Hrun.
  eexists. split.
  - unfold _project_costs, bind, lift. rewrite Hrun. reflexivity.
  - cbn [monthly_costs]. split; [exact Hlen |]. exact Hc.
Qed.

Lemma project_revenue_shape current_revenue customer_count funding_stage w rp w' :
  _project_revenue draws current_revenue customer_count funding_stage w = (Return rp, w') ->
  annual_revenue rp = annual_sums (List.map rev_revenue (monthly_revenue rp))
  /\ revenue_total_36_months rp = py_sum (List.map rev_revenue (monthly_revenue rp)).
Proof.
  unfold _project_revenue, bind.
  destruct (revenue_loop _ _ _ _ _ _ _) as [[l | e] w1]; [| discriminate].
  unfold ret. intros [= <- <-]. split; reflexivity.
Qed.





(** X4. On a projection with fewer than three annual buckets the valuation
    annualises the last month: the projected annual revenue is twelve times
    the revenue of the last monthly record, rounded; with no monthly record
    at all the lookup of the last one raises [IndexError] and the clock is
    not read. *)
Theorem valuation_of_a_short_projection rp funding_stage w :
  (length (annual_revenue rp) <= 2)%nat ->
  match last (monthly_revenue rp) with
  | Some r =>
      exists v w',
        _calculate_valuation clock rp funding_stage w = (Return v, w')
        /\ projected_annual_revenue v = py_round (rev_revenue r * 12) 2
        /\ estimated_valuation v
           = py_round (rev_revenue r * 12 * table_get valuation_multiples funding_stage 8%Q) 2
  | None => _calculate_valuation clock rp funding_stage w = (Raise IndexError, w)
  end.
Proof.
  intros Hlen. unfold _calculate_valuation.
  assert (E : (2 <? length (annual_revenue rp))%nat = false) by (apply Nat.ltb_ge; lia).
  rewrite E. rewrite last_lookup.
  replace (Init.Nat.pred (length (monthly_revenue rp)))
    with (length (monthly_revenue rp) - 1)%nat by lia.
  unfold bind at 1. unfold bind at 1. unfold lift, py_index.
  destruct (monthly_revenue rp !! (length (monthly_revenue rp) - 1)%nat) as [r |].
  - eexists _, _. split; [reflexivity |]. split; reflexivity.
  - reflexivity.
Qed.
Lemma cash_flow_loop_long rp cp : forall n m cash acc,
  (m + n <= length (monthly_revenue rp))%nat ->
  (m + n <= length (monthly_costs cp))%nat ->
  exists out cash',
    cash_flow_loop rp cp n (S m) cash acc = Return (acc ++ out, cash')
    /\ length out = n.
Proof.
  induction n as [| n IH]; intros m cash acc Hr Hc.
  - exists [], cash. simpl. now rewrite app_nil_r.
  - destruct (lookup_lt_is_Some_2 (monthly_revenue rp) m ltac:(lia)) as [r Er].
    destruct (lookup_lt_is_Some_2 (monthly_costs cp) m ltac:(lia)) as [c Ec].
    cbn [cash_flow_loop]. replace (S m - 1)%nat with m by lia.
    unfold py_index. rewrite Er, Ec.
    match goal with
    | |- context [cash_flow_loop rp cp n (S (S m)) ?cash1 (acc ++ [?x])] =>
        destruct (IH (S m) cash1 (acc ++ [x]) ltac:(lia) ltac:(lia))
          as (out & cash' & Hrun & Hlen);
        exists (x :: out), cash'
    end.
    rewrite Hrun, <- app_assoc. split; [reflexivity | simpl; congruence].
Qed.

Lemma cash_flow_loop_short rp cp : forall n m cash acc,
  (m <= length (monthly_revenue rp))%nat ->
  (m <= length (monthly_costs cp))%nat ->
  (length (monthly_revenue rp) < m + n \/ length (monthly_costs cp) < m + n)%nat ->
  cash_flow_loop rp cp n (S m) cash acc = Raise IndexError.
Proof.
  induction n as [| n IH]; intros m cash acc Hr Hc Hshort.
  - lia.
  - cbn [cash_flow_loop]. replace (S m - 1)%nat with m by lia. unfold py_index.
    destruct (monthly_revenue rp !! m) as [r |] eqn:Er; [| reflexivity].
    destruct (monthly_costs cp !! m) as [c |] eqn:Ec; [| reflexivity].
    apply lookup_lt_Some in Er, Ec.
    apply IH; lia.
Qed.

(** X5. The cash-flow projection reads 36 monthly records of each of its
    two inputs: it returns, with 36 records, exactly when both inputs have at
    least 36; when either is shorter it raises [IndexError]. *)
Theorem cash_flow_needs_36_months rp cp w :
  ((36 <= length (monthly_revenue rp))%nat /\ (36 <= length (monthly_costs cp))%nat ->
   exists cf,
     _project_cash_flow rp cp w = (Return cf, w)
     /\ length (monthly_cash_flow cf) = 36%nat)
  /\ ((length (monthly_revenue rp) < 36)%nat \/ (length (monthly_costs cp) < 36)%nat ->
      _project_cash_flow rp cp w = (Raise IndexError, w)).
Proof.
  split.
  - intros [Hr Hc].
    destruct (cash_flow_loop_long rp cp 36 0 1000000%Q [] ltac:(simpl; lia) ltac:(simpl; lia))
      as (out & cash' & Hrun & Hlen).
    simpl app in Hrun. eexists. split.
    + unfold _project_cash_flow, bind, lift. rewrite Hrun. reflexivity.
    + exact Hlen.
  - intros Hshort.
    unfold _project_cash_flow, bind, lift.
    rewrite (cash_flow_loop_short rp cp 36 0 1000000%Q []); [reflexivity | lia | lia |].
    simpl. lia.
Qed.



Lemma float_of_ill_typed v : ill_typed v = true -> float_of v = Raise TypeError.
Proof. destruct v; simpl; intros H; try discriminate; reflexivity. Qed.










Lemma running_revenue_zero g s x k :
  (x == 0)%Q -> (running_revenue draws g s x k == 0)%Q.
Proof.
  intros Hx. induction k as [| k IH]; simpl; [exact Hx |]. rewrite IH. lra.
Qed.

Lemma py_sum_zeros l : (forall q, In q l -> (q == 0)%Q) -> (py_sum l == 0)%Q.
Proof.
  induction l as [| a l IH]; intros H.
  - reflexivity.
  - rewrite py_sum_cons, (H a (or_introl eq_refl)), IH; [lra |].
    intros q Hq. apply H. now right.
Qed.

(** X8. A revenue of zero stays zero: when [current_revenue] is absent or
    is 0, every monthly revenue and the 36-month total are 0 whatever samples
    are drawn and whatever the funding stage, and the key metrics computed
    from such a projection take the guarded profit margin 0 instead of
    dividing by the total. *)
Theorem zero_revenue_stays_zero current_revenue customer_count funding_stage x cp w :
  float_of current_revenue = Return x ->
  (x == 0)%Q ->
  exists rp w1 km,
    _project_revenue draws current_revenue customer_count funding_stage w = (Return rp, w1)
    /\ (forall j r, monthly_revenue rp !! j = Some r -> (rev_revenue r == 0)%Q)
    /\ (revenue_total_36_months rp == 0)%Q
    /\ _calculate_key_metrics rp cp w1 = (Return km, w1)
    /\ profit_margin km = 0%Q.
Proof.
  intros Hx Hzero.
  destruct (project_revenue_run draws current_revenue customer_count funding_stage x w Hx)
    as (rp & w1 & Hrp & Hlr & _ & _ & _ & _ & _ & Hrec).
  destruct (project_revenue_shape _ _ _ _ _ _ Hrp) as [_ Et].
  assert (Hmonths : forall j r, monthly_revenue rp !! j = Some r -> (rev_revenue r == 0)%Q).
  { intros j r Hj.
    assert (Hlt : (j < 36)%nat) by (rewrite <- Hlr; eapply lookup_lt_Some; eauto).
    destruct (Hrec j Hlt) as (r' & Hr' & _ & E). rewrite Hj in Hr'. injection Hr' as <-.
    rewrite E. apply py_round_zero. now apply running_revenue_zero. }
  assert (Htotal : (revenue_total_36_months rp == 0)%Q).
  { rewrite Et. apply py_sum_zeros. intros q Hq.
    apply in_map_iff in Hq as (r & <- & Hr).
    apply list_elem_of_In in Hr. apply list_elem_of_lookup in Hr as [j Hj]. eauto. }
  eexists rp, w1, _. split; [exact Hrp |]. split; [exact Hmonths |].
  split; [exact Htotal |]. split; [reflexivity |].
  cbn [profit_margin].
  assert (E : Qlt_bool 0 (revenue_total_36_months rp) = false).
  { apply Qlt_bool_false. lra. }
  now rewrite E.
Qed.
End Engine.

(** X1, on a team of five. *)
Lemma sample_team_stays_under_cap :
  float_of (PyInt 5) = Return (inject_Z 5)
  /\ exists cp,
       _project_costs (PyInt 5) (PyStr "series_b") initial_world = (Return cp, initial_world)
       /\ forall j c, monthly_costs cp !! j = Some c -> (cost_team_size c <= 100)%Q.
Proof.
  assert (H : float_of (PyInt 5) = Return (inject_Z 5)) by (vm_compute; reflexivity).
  split; [exact H |].
  destruct (team_size_never_exceeds_cap (PyInt 5) (PyStr "series_b") (inject_Z 5)
              initial_world H) as (cp & Hrun & _ & Hb).
  exists cp. split; [exact Hrun |]. intros j c Hj. now destruct (Hb j c Hj) as (_ & Hs & _).
Defined.



(** X4, on a projection of one month. *)
Lemma one_month_valuation :
  (length (annual_revenue one_month_projection) <= 2)%nat
  /\ exists v w',
       _calculate_valuation ticking_clock one_month_projection (PyStr "seed") initial_world
       = (Return v, w')
       /\ (projected_annual_revenue v == 1200)%Q.
Proof.
  assert (H : (length (annual_revenue one_month_projection) <= 2)%nat) by (simpl; lia).
  split; [exact H |].
  pose proof (valuation_of_a_short_projection ticking_clock one_month_projection
                (PyStr "seed") initial_world H) as Hv.
  simpl last in Hv. destruct Hv as (v & w' & Hrun & Hp & _).
  exists v, w'. split; [exact Hrun |]. rewrite Hp. vm_compute. reflexivity.
Defined.



(** X8, on a profile that has no revenue entry: the default is the integer
    0. *)
Lemma absent_revenue_projects_zero :
  float_of (PyInt 0) = Return (inject_Z 0)
  /\ (inject_Z 0 == 0)%Q
  /\ exists rp w1,
       _project_revenue slump (PyInt 0) (PyInt 0) (PyStr "seed") initial_world
       = (Return rp, w1)
       /\ (revenue_total_36_months rp == 0)%Q.
Proof.
  assert (H1 : float_of (PyInt 0) = Return (inject_Z 0)) by (vm_compute; reflexivity).
  assert (H2 : (inject_Z 0 == 0)%Q) by reflexivity.
  split; [exact H1 |]. split; [exact H2 |].
  destruct (project_costs_run (PyInt 5) (PyStr "seed") (inject_Z 5) initial_world)
    as (cp & _); [vm_compute; reflexivity |].
  destruct (zero_revenue_stays_zero slump (PyInt 0) (PyInt 0) (PyStr "seed") (inject_Z 0)
              cp initial_world H1 H2)
    as (rp & w1 & km & Hrp & _ & Ht & _).
  exists rp, w1. split; assumption.
Defined.

End FinancialModelerExtras.


(** * Properties of rate_limiter.py *)

Module RateLimiterProofs.
Import RateLimiter RateLimiterSpec Rounding.
Local Open Scope list_scope.

Lemma within_narrower (narrow wide now : Q) (times : list Q) :
  (narrow <= wide)%Q ->
  within narrow now (within wide now times) = within narrow now times.
Proof.
  intros Hw. unfold within. induction times as [| t times IH]; [reflexivity |].
  simpl. destruct (Qlt_bool (now - t) wide) eqn:Ewide; simpl.
  - now rewrite IH.
  - rewrite IH. destruct (Qlt_bool (now - t) narrow) eqn:En; [| reflexivity].
    apply Qlt_bool_true in En. apply Qlt_bool_false in Ewide. lra.
Qed.

Lemma within_later (window t0 now : Q) (times : list Q) :
  (t0 <= now)%Q ->
  (length (within window now times) <= length (within window t0 times))%nat.
Proof.
  intros Ht. unfold within. induction times as [| t times IH]; [simpl; lia |].
  simpl. destruct (Qlt_bool (now - t) window) eqn:En.
  - assert (E0 : Qlt_bool (t0 - t) window = true).
    { apply Qlt_bool_true in En. apply Qlt_bool_true. lra. }
    rewrite E0. simpl. lia.
  - destruct (Qlt_bool (t0 - t) window); simpl; lia.
Qed.

Lemma within_now (window now : Q) (times : list Q) :
  (0 < window)%Q ->
  within window now (times ++ [now]) = within window now times ++ [now].
Proof.
  intros Hw. unfold within. rewrite List.filter_app. simpl.
  assert (E : Qlt_bool (now - now) window = true) by (apply Qlt_bool_true; lra).
  now rewrite E.
Qed.

Lemma within_in (window now t : Q) (times : list Q) :
  In t (within window now times) -> (now - t < window)%Q.
Proof.
  unfold within. intros H. apply List.filter_In in H as [_ H]. now apply Qlt_bool_true.
Qed.

(** What [is_allowed] does, in terms of the times kept for the client. *)
Lemma is_allowed_cases self client_id now :
  let stored := match requests self !! client_id with Some times => times | None => [] end in
  let kept := within 3600 now stored in
  let minute := Z.of_nat (length (within 60 now stored)) in
  let hour := Z.of_nat (length kept) in
  (allowed (is_allowed self client_id now) = true
   /\ minute < rate_limit_per_minute self /\ hour < rate_limit_per_hour self
   /\ limiter (is_allowed self client_id now)
      = set_requests self (<[client_id := kept ++ [now]]> (requests self)))
  \/ (allowed (is_allowed self client_id now) = false
      /\ (rate_limit_per_minute self <= minute \/ rate_limit_per_hour self <= hour)
      /\ limiter (is_allowed self client_id now)
         = set_requests self (<[client_id := kept]> (requests self))).
Proof.
  intros stored kept minute hour. unfold is_allowed.
  fold stored. rewrite (within_narrower 60 3600 now stored) by lra.
  fold kept. fold minute. fold hour.
  destruct (rate_limit_per_minute self <=? minute) eqn:Em.
  - right. apply Z.leb_le in Em. simpl. auto.
  - apply Z.leb_gt in Em.
    destruct (rate_limit_per_hour self <=? hour) eqn:Eh.
    + right. apply Z.leb_le in Eh. simpl. auto.
    + left. apply Z.leb_gt in Eh. simpl. auto.
Qed.

(** X10. [is_allowed] grants a request exactly when
    [get_remaining_requests], asked at the same moment, reports a positive
    number of remaining requests for the minute and for the hour. *)
Theorem is_allowed_iff_requests_remain self client_id now :
  allowed (is_allowed self client_id now) = true
  <-> 0 < fst (get_remaining_requests self client_id now)
      /\ 0 < snd (get_remaining_requests self client_id now).
Proof.
  pose proof (is_allowed_cases self client_id now) as H. cbv zeta in H.
  unfold get_remaining_requests.
  destruct (requests self !! client_id) as [times |] eqn:E; simpl fst; simpl snd;
    cbv iota in H.
  - destruct H as [(Ha & Hm & Hh & _) | (Ha & Hd & _)]; rewrite Ha.
    + split; [intros _; lia | reflexivity].
    + split; [discriminate | intros [H1 H2]; lia].
  - change (within 60 now []) with (@nil Q) in H.
    change (within 3600 now []) with (@nil Q) in H. simpl length in H.
    destruct H as [(Ha & Hm & Hh & _) | (Ha & Hd & _)]; rewrite Ha.
    + split; [intros _; lia | reflexivity].
    + split; [discriminate | intros [H1 H2]; lia].
Qed.

(** X11. A call of [is_allowed] touches the entry of the asking client
    only: the limits and the times kept for every other client are as before.
    For the asking client the times older than an hour are dropped, a granted
    request is recorded last and a denied one is not recorded. *)
Theorem is_allowed_records_only_granted_requests self client_id now :
  let after := limiter (is_allowed self client_id now) in
  let stored := match requests self !! client_id with Some times => times | None => [] end in
  rate_limit_per_minute after = rate_limit_per_minute self
  /\ rate_limit_per_hour after = rate_limit_per_hour self
  /\ (forall other, other <> client_id ->
        requests after !! other = requests self !! other)
  /\ requests after !! client_id
     = Some (if allowed (is_allowed self client_id now)
             then within 3600 now stored ++ [now]
             else within 3600 now stored)
  /\ (forall times t, requests after !! client_id = Some times -> In t times ->
        (now - t < 3600)%Q).
Proof.
  intros after stored.
  pose proof (is_allowed_cases self client_id now) as H. cbv zeta in H. fold stored in H.
  assert (Hreq : requests after !! client_id
                 = Some (if allowed (is_allowed self client_id now)
                         then within 3600 now stored ++ [now]
                         else within 3600 now stored)
                 /\ (forall other, other <> client_id ->
                       requests after !! other = requests self !! other)
                 /\ rate_limit_per_minute after = rate_limit_per_minute self
                 /\ rate_limit_per_hour after = rate_limit_per_hour self).
  { subst after.
    destruct H as [(Ha & _ & _ & ->) | (Ha & _ & ->)]; rewrite Ha; simpl;
      rewrite lookup_insert_eq; (split; [reflexivity |]); (split; [| split; reflexivity]);
      intros other Hne; now rewrite lookup_insert_ne. }
  destruct Hreq as (Hc & Ho & Hm & Hh).
  split; [exact Hm |]. split; [exact Hh |]. split; [exact Ho |]. split; [exact Hc |].
  intros times t Ht Hin. rewrite Hc in Ht. injection Ht as <-.
  destruct (allowed (is_allowed self client_id now)).
  - apply in_app_or in Hin as [Hin | [<- | []]]; [now apply within_in in Hin | lra].
  - now apply within_in in Hin.
Qed.

(** One call keeps the limiter within its limits. *)
Lemma is_allowed_keeps_within_limits self client_id t0 now :
  0 <= rate_limit_per_minute self ->
  0 <= rate_limit_per_hour self ->
  within_limits self t0 ->
  (t0 <= now)%Q ->
  within_limits (limiter (is_allowed self client_id now)) now.
Proof.
  intros Hm0 Hh0 Hinv Ht other times Hother.
  pose proof (is_allowed_cases self client_id now) as H. cbv zeta in H.
  set (stored := match requests self !! client_id with Some ts => ts | None => [] end) in *.
  assert (Hstored : Z.of_nat (length (within 60 t0 stored)) <= rate_limit_per_minute self
                    /\ Z.of_nat (length (within 3600 t0 stored)) <= rate_limit_per_hour self).
  { subst stored. destruct (requests self !! client_id) as [ts |] eqn:E.
    - exact (Hinv client_id ts E).
    - simpl. lia. }
  pose proof (within_later 60 t0 now stored Ht) as L60.
  pose proof (within_later 3600 t0 now stored Ht) as L3600.
  destruct (decide (other = client_id)) as [-> | Hne].
  - destruct H as [(_ & Hmin & Hhour & Hl) | (_ & _ & Hl)];
      rewrite Hl in Hother |- *; simpl in Hother |- *;
      rewrite lookup_insert_eq in Hother; injection Hother as <-.
    + rewrite !within_now by lra. rewrite !length_app. simpl.
      rewrite (within_narrower 60 3600 now stored), (within_narrower 3600 3600 now stored)
        by lra.
      lia.
    + rewrite (within_narrower 60 3600 now stored), (within_narrower 3600 3600 now stored)
        by lra.
      lia.
  - assert (Hsame : requests self !! other = Some times
                    /\ rate_limit_per_minute (limiter (is_allowed self client_id now))
                       = rate_limit_per_minute self
                    /\ rate_limit_per_hour (limiter (is_allowed self client_id now))
                       = rate_limit_per_hour self).
    { destruct H as [(_ & _ & _ & Hl) | (_ & _ & Hl)];
        rewrite Hl in Hother |- *; simpl in Hother |- *;
        rewrite lookup_insert_ne in Hother by congruence; auto. }
    destruct Hsame as (Hs & -> & ->).
    destruct (Hinv other times Hs) as [H60 H3600].
    pose proof (within_later 60 t0 now times Ht).
    pose proof (within_later 3600 t0 now times Ht).
    lia.
Qed.

Lemma is_allowed_keeps_limits self client_id now :
  rate_limit_per_minute (limiter (is_allowed self client_id now)) = rate_limit_per_minute self
  /\ rate_limit_per_hour (limiter (is_allowed self client_id now)) = rate_limit_per_hour self.
Proof.
  pose proof (is_allowed_cases self client_id now) as H. cbv zeta in H.
  destruct H as [(_ & _ & _ & ->) | (_ & _ & ->)]; split; reflexivity.
Qed.

Lemma serve_keeps_within_limits : forall calls self t0,
  0 <= rate_limit_per_minute self ->
  0 <= rate_limit_per_hour self ->
  within_limits self t0 ->
  in_time_order t0 calls ->
  within_limits (serve self calls) (last_time t0 calls)
  /\ rate_limit_per_minute (serve self calls) = rate_limit_per_minute self
  /\ rate_limit_per_hour (serve self calls) = rate_limit_per_hour self.
Proof.
  induction calls as [| [c t] calls IH]; intros self t0 Hm Hh Hinv Horder.
  - simpl. auto.
  - destruct Horder as [Ht Hrest]. cbn [serve last_time].
    destruct (is_allowed_keeps_limits self c t) as [Em Eh].
    destruct (IH (limiter (is_allowed self c t)) t) as (H1 & H2 & H3).
    + now rewrite Em.
    + now rewrite Eh.
    + now apply (is_allowed_keeps_within_limits self c t0 t).
    + exact Hrest.
    + rewrite H2, H3, Em, Eh. auto.
Qed.

(** X12. Starting from a limiter that has seen no request, with limits that
    are not negative, after any series of [is_allowed] calls made at times
    that do not go back, no client has more request times on record within
    the minute before the last call than the per-minute limit, nor within the
    hour before it than the per-hour limit. *)
Theorem served_requests_stay_within_limits per_minute per_hour calls start :
  0 <= per_minute ->
  0 <= per_hour ->
  in_time_order start calls ->
  forall client_id times,
    requests (serve (fresh per_minute per_hour) calls) !! client_id = Some times ->
    Z.of_nat (length (within 60 (last_time start calls) times)) <= per_minute
    /\ Z.of_nat (length (within 3600 (last_time start calls) times)) <= per_hour.
Proof.
  intros Hm Hh Horder client_id times Hl.
  destruct (serve_keeps_within_limits calls (fresh per_minute per_hour) start Hm Hh)
    as (Hinv & Em & Eh).
  - intros c ts Hc. simpl in Hc. rewrite lookup_empty in Hc. discriminate.
  - exact Horder.
  - destruct (Hinv client_id times Hl) as [H1 H2]. rewrite Em in H1. rewrite Eh in H2.
    exact (conj H1 H2).
Qed.

(** X13. A granted request uses up exactly one of the remaining requests of
    the minute and one of the hour, as [get_remaining_requests] reports them
    at the moment of the call; a denied request, under limits that are not
    negative, leaves both numbers as they were. *)
Theorem granted_request_uses_one_of_the_remaining self client_id now :
  let before := get_remaining_requests self client_id now in
  let after := get_remaining_requests (limiter (is_allowed self client_id now))
                 client_id now in
  (allowed (is_allowed self client_id now) = true ->
   fst after = fst before - 1 /\ snd after = snd before - 1)
  /\ (allowed (is_allowed self client_id now) = false ->
      0 <= rate_limit_per_minute self -> 0 <= rate_limit_per_hour self ->
      after = before).
Proof.
  intros before after. subst before after.
  pose proof (is_allowed_cases self client_id now) as H. cbv zeta in H.
  unfold get_remaining_requests.
  destruct (requests self !! client_id) as [times |] eqn:E; cbv iota in H.
  - destruct H as [(Ha & Hm & Hh & Hl) | (Ha & Hd & Hl)]; rewrite Ha, Hl;
      cbn [limiter requests set_requests rate_limit_per_minute rate_limit_per_hour fst snd];
      rewrite lookup_insert_eq.
    + split; [| discriminate]. intros _.
      rewrite !within_now by lra. rewrite !length_app.
      rewrite (within_narrower 60 3600 now times), (within_narrower 3600 3600 now times)
        by lra.
      cbn [fst snd length]. lia.
    + split; [discriminate |]. intros _ _ _.
      rewrite (within_narrower 60 3600 now times), (within_narrower 3600 3600 now times)
        by lra.
      reflexivity.
  - change (within 60 now []) with (@nil Q) in H.
    change (within 3600 now []) with (@nil Q) in H. simpl length in H.
    destruct H as [(Ha & Hm & Hh & Hl) | (Ha & Hd & Hl)]; rewrite Ha, Hl;
      cbn [limiter requests set_requests rate_limit_per_minute rate_limit_per_hour fst snd];
      rewrite lookup_insert_eq.
    + split; [| discriminate]. intros _.
      rewrite !(within_now _ now []) by lra.
      change (within 60 now []) with (@nil Q). change (within 3600 now []) with (@nil Q).
      cbn [fst snd length app]. lia.
    + split; [discriminate |]. intros _ Hm0 Hh0.
      change (within 60 now []) with (@nil Q). change (within 3600 now []) with (@nil Q).
      cbn [length]. f_equal; lia.
Qed.

(** X12, on a burst of calls under limits of 2 per minute and 3 per hour. *)
Lemma burst_stays_within_limits :
  0 <= 2 /\ 0 <= 3 /\ in_time_order 0 burst
  /\ forall client_id times,
       requests (serve (fresh 2 3) burst) !! client_id = Some times ->
       Z.of_nat (length (within 60 100 times)) <= 2.
Proof.
  assert (H1 : 0 <= 2) by lia. assert (H2 : 0 <= 3) by lia.
  assert (H3 : in_time_order 0 burst).
  { simpl. repeat split; vm_compute; discriminate. }
  split; [exact H1 |]. split; [exact H2 |]. split; [exact H3 |].
  intros client_id times Hl.
  destruct (served_requests_stay_within_limits 2 3 burst 0 H1 H2 H3 client_id times Hl)
    as [Hmin _].
  exact Hmin.
Defined.






End RateLimiterProofs.

(** * Properties of the slide generators of content_generator.py *)

Module SlideGeneratorsProofs.
Import ContentGenerator ContentGeneratorSpec SlideGenerators SlideGeneratorsSpec.
Local Open Scope list_scope.

Section Body.
Variable column : Startup -> string -> Json.
Variable get_prompt_template : SlideType -> string -> string.
Variable format : string -> kwargs -> result string.
Variable json_dumps : Json -> string.
Variable json_loads : string -> result kwargs.
Variable month_and_year : nat -> string.

(** Every generator but the market and the competition one passes a keyword
    that the context data repeat. *)
Lemma slide_body_type_error completion k startup t :
  t <> MARKET_OPPORTUNITY -> t <> COMPETITION ->
  slide_body column get_prompt_template format json_dumps json_loads completion
    month_and_year k startup t = Raise TypeError.
Proof.
  intros Hm Hc. destruct t; try contradiction; reflexivity.
Qed.

(** X15. Every slide type other than the market opportunity and the
    competition slide fails with a [TypeError] whatever the startup, the
    template and the provider are: its generator passes to [format] a keyword
    that the context data, unpacked into the same call, pass again. *)
Theorem repeated_keyword_stops_the_generator completion k startup t :
  t <> MARKET_OPPORTUNITY -> t <> COMPETITION ->
  slide_body column get_prompt_template format json_dumps json_loads completion
    month_and_year k startup t = Raise TypeError.
Proof.
  exact (slide_body_type_error completion k startup t).
Qed.

(** X16. Whatever the provider answers, the batch for a request holds the
    fallback record at every position whose slide type is neither the market
    opportunity nor the competition slide; of the default ten slides at most
    these two carry generated content. *)
Theorem only_two_slide_types_are_ever_generated completion clock startup slide_types w :
  exists out w',
    generate_pitch_deck_content
      (slide_body column get_prompt_template format json_dumps json_loads completion
         month_and_year) clock startup slide_types w = (Return out, w')
    /\ length out = length (requested slide_types)
    /\ (forall j t, requested slide_types !! j = Some t ->
          t <> MARKET_OPPORTUNITY -> t <> COMPETITION ->
          exists now, out !! j = Some (fallback_record t now))
    /\ (slide_types = None ->
        forall j sc, out !! j = Some sc -> j <> 3%nat -> j <> 6%nat ->
          model_used sc = "fallback").
Proof.
  destruct (ContentGeneratorProofs.orchestrator_slots
              (slide_body column get_prompt_template format json_dumps json_loads
                 completion month_and_year) clock startup slide_types w)
    as (out & w' & Hrun & Hlen & Hs).
  exists out, w'. split; [exact Hrun |]. clear Hrun. split; [exact Hlen |].
  assert (Hfb : forall j t, requested slide_types !! j = Some t ->
            t <> MARKET_OPPORTUNITY -> t <> COMPETITION ->
            exists now, out !! j = Some (fallback_record t now)).
  { intros j t Hj Hm Hc. destruct (Hs j t Hj) as (sc & Hsc & Hslot).
    rewrite (slide_body_type_error completion _ startup t Hm Hc) in Hslot.
    destruct Hslot as (now & ->). now exists now. }
  split; [exact Hfb |].
  intros -> j sc Hj H3 H6.
  assert (Hlt : (j < 10)%nat).
  { apply lookup_lt_Some in Hj. rewrite Hlen in Hj. exact Hj. }
  assert (Ht : exists t, default_slide_types !! j = Some t
                         /\ t <> MARKET_OPPORTUNITY /\ t <> COMPETITION).
  { do 10 (destruct j as [| j];
           [first [congruence
                  | eexists; split; [reflexivity |]; split; discriminate] |]).
    lia. }
  destruct Ht as (t & Ht & Hm & Hc).
  destruct (Hfb j t Ht Hm Hc) as (now & Hnow).
  rewrite Hnow in Hj. injection Hj as <-. reflexivity.
Qed.

(** X17. A reply that does not start with a brace is wrapped under the key
    ["content"], which no generator that gets as far as the provider reads:
    the outcome of the job is the same whatever such a reply says. *)
Theorem reply_in_prose_is_dropped completion completion' k startup t :
  (forall prompt max_tokens, exists reply,
     completion k prompt max_tokens = Return reply
     /\ String.prefix "{" reply = false) ->
  (forall prompt max_tokens, exists reply,
     completion' k prompt max_tokens = Return reply
     /\ String.prefix "{" reply = false) ->
  slide_body column get_prompt_template format json_dumps json_loads completion
    month_and_year k startup t
  = slide_body column get_prompt_template format json_dumps json_loads completion'
      month_and_year k startup t.
Proof.
  intros H H'.
  destruct t; try reflexivity;
    unfold slide_body, _generate_market_slide, _generate_competition_slide;
    match goal with
    | |- context [bind_keywords ?e ?m] =>
        change (bind_keywords e m) with (Return (e ++ m))
    end;
    cbn [mbind result_bind];
    match goal with
    | |- context [format ?a ?b] => destruct (format a b) as [prompt | e]; [| reflexivity]
    end;
    unfold _call_openai; cbn [mbind result_bind];
    match goal with
    | |- context [completion k ?p ?n] =>
        destruct (H p n) as (reply & Hr & Hp);
        destruct (H' p n) as (reply' & Hr' & Hp')
    end;
    rewrite Hr, Hr'; cbn [mbind result_bind]; rewrite Hp, Hp';
    reflexivity.
Qed.
End Body.

(** X15, on the title slide. *)
Lemma title_slide_fails_on_its_keywords :
  TITLE <> MARKET_OPPORTUNITY /\ TITLE <> COMPETITION
  /\ slide_body no_columns one_template template_as_it_is dumps_brackets loads_nothing
       answers_in_prose every_month 0 sample_startup TITLE = Raise TypeError.
Proof.
  split; [discriminate |]. split; [discriminate |].
  apply (repeated_keyword_stops_the_generator no_columns one_template template_as_it_is
           dumps_brackets loads_nothing every_month answers_in_prose 0%nat sample_startup
           TITLE); discriminate.
Defined.

(** X17, on the market slide and two replies in prose. *)
Lemma market_slide_ignores_prose :
  slide_body no_columns one_template template_as_it_is dumps_brackets loads_nothing
    answers_in_prose every_month 0 sample_startup MARKET_OPPORTUNITY
  = slide_body no_columns one_template template_as_it_is dumps_brackets loads_nothing
      answers_briefly every_month 0 sample_startup MARKET_OPPORTUNITY
  /\ exists payload,
       slide_body no_columns one_template template_as_it_is dumps_brackets loads_nothing
         answers_in_prose every_month 0 sample_startup MARKET_OPPORTUNITY = Return payload.
Proof.
  split.
  - apply (reply_in_prose_is_dropped no_columns one_template template_as_it_is
             dumps_brackets loads_nothing every_month answers_in_prose answers_briefly
             0%nat sample_startup MARKET_OPPORTUNITY);
      intros prompt max_tokens; eexists; (split; [reflexivity | reflexivity]).
  - eexists. reflexivity.
Defined.

End SlideGeneratorsProofs.
